(** * Tracker: the in-memory data store and the date window of the grid

    A shallow embedding of [src/store/dataStore.ts] (class [DataStore]), of
    the hook [useTracker] (hooks/useTracker.ts) and of the paging of the
    mobile grid (components/Grid.tsx), followed by the properties of the
    specification that concern them and by further properties of the
    code.

    Conventions of the embedding.
    - A JavaScript string is the list of its UTF-16 code units; [===] on
      strings is equality of these lists ([streq]).
    - A [Date] is its time value, the number of milliseconds since the
      epoch, as a [Z].  The functions of date-fns are those of a time zone
      whose local days all last 24 hours (no daylight-saving change) and,
      for [startOfDay] and [format], whose offset is zero.
    - [order_index] is a JavaScript number holding an integer (the column
      is INTEGER in the schema); it is a [Z].
    - What a call draws from outside the program ([uuidv4()], [new Date()],
      [Math.random()], the answer of the Supabase client) is an argument of
      the embedded function.  An awaited call of the client resolves to
      [{ data, error }]; a failure of the remote store is [error] being
      set. *)

From Stdlib Require Import ZArith List Bool String Ascii Lia.
From Stdlib Require Import Sorting.Sorted Sorting.Permutation.
Import ListNotations.

Local Open Scope Z_scope.

(** ** Strings *)

Definition jsstring := list N.

(** The code units of an ASCII literal. *)
Definition js (s : string) : jsstring :=
  map N_of_ascii (list_ascii_of_string s).

(** [a === b] on strings. *)
Fixpoint streq (a b : jsstring) : bool :=
  match a, b with
  | [], [] => true
  | x :: a', y :: b' => N.eqb x y && streq a' b'
  | _, _ => false
  end.

(** White space and line terminators of ECMAScript, the code units that
    [String.prototype.trim] strips (all of them lie in the basic plane). *)
Definition isWhiteSpace (c : N) : bool :=
  (let i := Z.of_N c in
   (9 <=? i) && (i <=? 13)
   || (i =? 32) || (i =? 160) || (i =? 5760)
   || (8192 <=? i) && (i <=? 8202)
   || (i =? 8232) || (i =? 8233) || (i =? 8239) || (i =? 8287)
   || (i =? 12288) || (i =? 65279))%bool.

Fixpoint trimStart (s : jsstring) : jsstring :=
  match s with
  | c :: s' => if isWhiteSpace c then trimStart s' else s
  | [] => []
  end.

(** [s.trim()]. *)
Definition trim (s : jsstring) : jsstring :=
  rev (trimStart (rev (trimStart s))).

(** Truthiness of a string: it is not empty. *)
Definition truthy (s : jsstring) : bool :=
  match s with [] => false | _ => true end.

(** ** Dates *)

Definition Date := Z.

Definition MS_PER_DAY : Z := 86400000.

Definition addDays (d : Date) (amount : Z) : Date := d + amount * MS_PER_DAY.
Definition subDays (d : Date) (amount : Z) : Date := addDays d (- amount).
Definition startOfDay (d : Date) : Date := d - d mod MS_PER_DAY.

(** [differenceInDays(l, r)]: the number of full days between the two
    instants, truncated towards zero. *)
Definition differenceInDays (l r : Date) : Z := Z.quot (l - r) MS_PER_DAY.

(** The civil date (year, month, day) of a day number counted from
    1970-01-01, in the proleptic Gregorian calendar. *)
Definition civil (day : Z) : Z * Z * Z :=
  let z := day + 719468 in
  let era := z / 146097 in
  let doe := z - era * 146097 in
  let yoe := (doe - doe / 1460 + doe / 36524 - doe / 146096) / 365 in
  let doy := doe - (365 * yoe + yoe / 4 - yoe / 100) in
  let mp := (5 * doy + 2) / 153 in
  let d := doy - (153 * mp + 2) / 5 + 1 in
  let m := if mp <? 10 then mp + 3 else mp - 9 in
  let y := yoe + era * 400 in
  (if m <=? 2 then y + 1 else y, m, d).

Definition digit (n : Z) : N := Z.to_N (48 + n mod 10).

Definition pad2 (n : Z) : jsstring := [digit (n / 10); digit n].
Definition pad4 (n : Z) : jsstring :=
  [digit (n / 1000); digit (n / 100); digit (n / 10); digit n].

(** [format(d, "yyyy-MM-dd")], for the years 0000 to 9999. *)
Definition format (d : Date) : jsstring :=
  let '(y, m, dd) := civil (d / MS_PER_DAY) in
  pad4 y ++ [45%N] ++ pad2 m ++ [45%N] ++ pad2 dd.

(** ** Entities (src/types/index.ts) *)

Module Activity.
Record t := make
  { id : jsstring; name : jsstring; created_at : Date; order_index : Z }.
End Activity.

Module Log.
Record t := make
  { id : jsstring; activity_id : jsstring; logged_date : jsstring;
    created_at : Date }.
End Log.

Module Note.
Record t := make
  { id : jsstring; logged_date : jsstring; text : jsstring;
    created_at : Date; updated_at : Date }.
End Note.

(** ** The Supabase client, seen from the store (src/lib/supabase.ts) *)

(** Rows as the database sends them: timestamps and dates are strings. *)
Record DbActivity := mkDbActivity
  { da_id : jsstring; da_name : jsstring; da_created_at : jsstring;
    da_order_index : Z }.

Record DbLog := mkDbLog
  { dl_id : jsstring; dl_activity_id : jsstring; dl_logged_date : jsstring;
    dl_created_at : jsstring }.

Record DbNote := mkDbNote
  { dn_id : jsstring; dn_logged_date : jsstring; dn_text : jsstring;
    dn_created_at : jsstring; dn_updated_at : jsstring }.

(** The fields the store reads in the row returned by [insert().select().single()]. *)
Record Inserted := mkInserted
  { row_id : jsstring; row_created_at : jsstring; row_updated_at : jsstring }.

(** The value [{ data, error }] an awaited call of the client resolves to:
    [Failed] when [error] is set, [Answered data] otherwise ([data] may be
    null). *)
Inductive Reply :=
| Failed
| Answered (data : option Inserted).

(** What one call of a mutation draws from outside the program. *)
Record Effects := mkEffects
  { uuidv4 : jsstring;     (* the identifier uuidv4() returns *)
    now : Date;            (* the instant new Date() reads *)
    reply : Reply }.       (* the answer of the client, when it is asked *)

(** The three answers [loadFromSupabase] receives; [None] when the answer
    carries an error (or no rows at all), which makes the load throw. *)
Record Tables := mkTables
  { activitiesData : option (list DbActivity);
    logsData : option (list DbLog);
    notesData : option (list DbNote) }.

(** What [initializeSampleData] draws: the clock, the identifiers (that of
    the activity at a position, of the log of the activity at a position on
    the day [i] days ago, of the note at a position) and, for the same
    activity and day, whether [Math.random() > 0.6] came out true. *)
Record Sampling := mkSampling
  { s_now : Date;
    s_activity_uuid : nat -> jsstring;
    s_log_uuid : nat -> nat -> jsstring;
    s_note_uuid : nat -> jsstring;
    s_random_gt : nat -> nat -> bool }.

(** ** Array helpers *)

(** The array after the first element satisfying [p] was mutated in place
    by [f] (the object [find] returned). *)
Fixpoint mutateFirst {A : Type} (p : A -> bool) (f : A -> A) (l : list A) : list A :=
  match l with
  | [] => []
  | x :: l' => if p x then f x :: l' else x :: mutateFirst p f l'
  end.

(** [l.forEach((x, index) => ...)] collecting what each round pushes. *)
Definition indexed {A : Type} (l : list A) : list (nat * A) :=
  combine (seq 0 (List.length l)) l.

(** [sort((a, b) => key(a) - key(b))], which is stable: an element is
    inserted before the elements to its right of the same key. *)
Fixpoint insertBy {A : Type} (key : A -> Z) (x : A) (l : list A) : list A :=
  match l with
  | [] => [x]
  | y :: l' => if key x <=? key y then x :: l else y :: insertBy key x l'
  end.

Definition sortBy {A : Type} (key : A -> Z) (l : list A) : list A :=
  fold_right (insertBy key) [] l.

(** ** class DataStore (src/store/dataStore.ts) *)

Module DataStore.

Record t := make
  { activities : list Activity.t;
    logs : list Log.t;
    notes : list Note.t;
    startDate : Date;
    initialized : bool;
    useSupabase : bool }.

Definition with_activities (x : list Activity.t) (st : t) : t :=
  make x (logs st) (notes st) (startDate st) (initialized st) (useSupabase st).
Definition with_logs (x : list Log.t) (st : t) : t :=
  make (activities st) x (notes st) (startDate st) (initialized st) (useSupabase st).
Definition with_notes (x : list Note.t) (st : t) : t :=
  make (activities st) (logs st) x (startDate st) (initialized st) (useSupabase st).
Definition with_startDate (x : Date) (st : t) : t :=
  make (activities st) (logs st) (notes st) x (initialized st) (useSupabase st).
Definition with_initialized (x : bool) (st : t) : t :=
  make (activities st) (logs st) (notes st) (startDate st) x (useSupabase st).
Definition with_useSupabase (x : bool) (st : t) : t :=
  make (activities st) (logs st) (notes st) (startDate st) (initialized st) x.

(** The result of an awaited method: the store afterwards, the value the
    promise resolves to, and the messages given to [console.error]. *)
Record Outcome (A : Type) := mkOutcome
  { after : t; returned : A; reported : list string }.
Arguments mkOutcome {A} _ _ _.
Arguments after {A} _.
Arguments returned {A} _.
Arguments reported {A} _.

(** [new DataStore()], built at the instant [now]; [supabase] tells
    whether the module created a client. *)
Definition create (supabase : bool) (now : Date) : t :=
  make [] [] [] (subDays now 30) false supabase.

Definition getStartDate (st : t) : Date := startDate st.

Definition getActivities (st : t) : list Activity.t :=
  sortBy Activity.order_index (activities st).

Definition getLogs (st : t) : list Log.t := logs st.

Definition getNotes (st : t) : list Note.t := notes st.

Definition getLogsForActivity (activityId : jsstring) (st : t) : list Log.t :=
  filter (fun log => streq (Log.activity_id log) activityId) (logs st).

Definition getLogForActivityAndDate (activityId date : jsstring) (st : t)
  : option Log.t :=
  find (fun log => streq (Log.activity_id log) activityId
                   && streq (Log.logged_date log) date) (logs st).

Definition getNoteForDate (date : jsstring) (st : t) : option Note.t :=
  find (fun note => streq (Note.logged_date note) date) (notes st).

Section Host.

(** Whether [supabase] (lib/supabase.ts) is a client rather than null. *)
Variable supabase : bool.
(** [new Date(s)] for a string [s]. *)
Variable newDate : jsstring -> Date.

(** The test [this.useSupabase && supabase]. *)
Definition remote (st : t) : bool := useSupabase st && supabase.

(** The second component is false when the method throws. *)
Definition loadFromSupabase (r : Tables) (st : t) : t * bool :=
  if negb supabase then (st, true) else
  match activitiesData r with
  | None => (st, false)
  | Some activitiesData =>
    let st := with_activities
      (map (fun a => Activity.make (da_id a) (da_name a)
                       (newDate (da_created_at a)) (da_order_index a))
           activitiesData) st in
    match logsData r with
    | None => (st, false)
    | Some logsData =>
      let st := with_logs
        (map (fun l => Log.make (dl_id l) (dl_activity_id l)
                         (dl_logged_date l) (newDate (dl_created_at l)))
             logsData) st in
      match notesData r with
      | None => (st, false)
      | Some notesData =>
        let st := with_notes
          (map (fun n => Note.make (dn_id n) (dn_logged_date n) (dn_text n)
                           (newDate (dn_created_at n))
                           (newDate (dn_updated_at n)))
               notesData) st in
        match map (fun l => newDate (Log.logged_date l)) (logs st) with
        | [] => (st, true)
        | d :: dates => (with_startDate (fold_left Z.min dates d) st, true)
        end
      end
    end
  end.

Definition sampleActivities : list jsstring :=
  [js "Exercise"; js "Reading"; js "Music"; js "Work"; js "Friends";
   js "Family"; js "Something Different"].

Definition sampleNotes : list (Z * jsstring) :=
  [(0, js "Feeling productive today!"); (2, js "Started a new project");
   (5, js "Great workout session")].

Definition initializeSampleData (s : Sampling) (st : t) : t :=
  let st := with_activities
    (activities st ++
     map (fun '(index, name) =>
            Activity.make (s_activity_uuid s index) name (s_now s)
                          (Z.of_nat index))
         (indexed sampleActivities)) st in
  let today := s_now s in
  let st := with_logs
    (logs st ++
     flat_map (fun '(pos, activity) =>
       flat_map (fun i =>
         if s_random_gt s pos i then
           [Log.make (s_log_uuid s pos i) (Activity.id activity)
                     (format (subDays today (Z.of_nat i))) (s_now s)]
         else [])
         (seq 0 30))
       (indexed (activities st))) st in
  with_notes
    (notes st ++
     map (fun '(pos, (daysAgo, text)) =>
            Note.make (s_note_uuid s pos) (format (subDays today daysAgo))
                      text (s_now s) (s_now s))
         (indexed sampleNotes)) st.

Definition initialize (r : Tables) (s : Sampling) (st : t) : t :=
  if initialized st then st
  else
    let fallback st := with_initialized true (initializeSampleData s st) in
    if remote st then
      match loadFromSupabase r st with
      | (st', true) => with_initialized true st'
      | (st', false) => fallback (with_useSupabase false st')
      end
    else fallback st.

Definition addActivity (e : Effects) (name : jsstring) (st : t)
  : Outcome Activity.t :=
  let maxOrder :=
    fold_right Z.max (-1) (map Activity.order_index (activities st)) in
  let newActivity := Activity.make (uuidv4 e) name (now e) (maxOrder + 1) in
  let '(newActivity, errors) :=
    if remote st then
      match reply e with
      | Failed => (newActivity, ["Failed to add activity to Supabase:"%string])
      | Answered (Some data) =>
          (Activity.make (row_id data) name (newDate (row_created_at data))
                         (maxOrder + 1), [])
      | Answered None => (newActivity, [])
      end
    else (newActivity, []) in
  mkOutcome (with_activities (activities st ++ [newActivity]) st)
            newActivity errors.

Definition toggleLog (e : Effects) (activityId date : jsstring) (st : t)
  : Outcome (option Log.t) :=
  match getLogForActivityAndDate activityId date st with
  | Some existingLog =>
      let errors :=
        if remote st then
          match reply e with
          | Failed => ["Failed to delete log from Supabase:"%string]
          | Answered _ => []
          end
        else [] in
      mkOutcome
        (with_logs
           (filter (fun log => negb (streq (Log.id log) (Log.id existingLog)))
                   (logs st)) st)
        None errors
  | None =>
      let newLog := Log.make (uuidv4 e) activityId date (now e) in
      let '(newLog, errors) :=
        if remote st then
          match reply e with
          | Failed => (newLog, ["Failed to add log to Supabase:"%string])
          | Answered (Some data) =>
              (Log.make (row_id data) activityId date
                        (newDate (row_created_at data)), [])
          | Answered None => (newLog, [])
          end
        else (newLog, []) in
      mkOutcome (with_logs (logs st ++ [newLog]) st) (Some newLog) errors
  end.

Definition saveNote (e : Effects) (date text : jsstring) (st : t)
  : Outcome Note.t :=
  match getNoteForDate date st with
  | Some existingNote =>
      let updated :=
        Note.make (Note.id existingNote) (Note.logged_date existingNote)
                  text (Note.created_at existingNote) (now e) in
      let errors :=
        if remote st then
          match reply e with
          | Failed => ["Failed to update note in Supabase:"%string]
          | Answered _ => []
          end
        else [] in
      mkOutcome
        (with_notes
           (mutateFirst (fun note => streq (Note.logged_date note) date)
                        (fun _ => updated) (notes st)) st)
        updated errors
  | None =>
      let newNote := Note.make (uuidv4 e) date text (now e) (now e) in
      let '(newNote, errors) :=
        if remote st then
          match reply e with
          | Failed => (newNote, ["Failed to add note to Supabase:"%string])
          | Answered (Some data) =>
              (Note.make (row_id data) date text
                         (newDate (row_created_at data))
                         (newDate (row_updated_at data)), [])
          | Answered None => (newNote, [])
          end
        else (newNote, []) in
      mkOutcome (with_notes (notes st ++ [newNote]) st) newNote errors
  end.

Definition deleteNote (e : Effects) (date : jsstring) (st : t)
  : Outcome unit :=
  let errors :=
    match getNoteForDate date st with
    | Some _ =>
        if remote st then
          match reply e with
          | Failed => ["Failed to delete note from Supabase:"%string]
          | Answered _ => []
          end
        else []
    | None => []
    end in
  mkOutcome
    (with_notes
       (filter (fun note => negb (streq (Note.logged_date note) date))
               (notes st)) st)
    tt errors.

Definition deleteActivity (e : Effects) (activityId : jsstring) (st : t)
  : Outcome unit :=
  let errors :=
    if remote st then
      match reply e with
      | Failed => ["Failed to delete activity from Supabase:"%string]
      | Answered _ => []
      end
    else [] in
  let st :=
    with_activities
      (filter (fun a => negb (streq (Activity.id a) activityId))
              (activities st)) st in
  mkOutcome
    (with_logs
       (filter (fun l => negb (streq (Log.activity_id l) activityId))
               (logs st)) st)
    tt errors.

Definition editActivity (e : Effects) (activityId newName : jsstring)
  (st : t) : Outcome unit :=
  match find (fun a => streq (Activity.id a) activityId) (activities st) with
  | None => mkOutcome st tt []
  | Some _ =>
      let errors :=
        if remote st then
          match reply e with
          | Failed => ["Failed to update activity in Supabase:"%string]
          | Answered _ => []
          end
        else [] in
      mkOutcome
        (with_activities
           (mutateFirst (fun a => streq (Activity.id a) activityId)
              (fun a => Activity.make (Activity.id a) newName
                          (Activity.created_at a) (Activity.order_index a))
              (activities st)) st)
        tt errors
  end.

End Host.

End DataStore.

(** ** function useTracker (hooks/useTracker.ts) *)

Module UseTracker.

Definition VISIBLE_DAYS : Z := 7.

(** The state of the hook: the singleton [dataStore] it talks to and the
    values held by [useState]. *)
Record t := make
  { store : DataStore.t;
    activities : list Activity.t;
    logs : list Log.t;
    notes : list Note.t;
    isLoading : bool;
    viewStartDate : Date }.

(** The initial value of [viewStartDate], computed at the instant [now]. *)
Definition initialViewStartDate (now : Date) : Date :=
  subDays (startOfDay now) (VISIBLE_DAYS - 1).

(** The first render. *)
Definition mount (st : DataStore.t) (now : Date) : t :=
  make st [] [] [] true (initialViewStartDate now).

(** *** The date window.  [startDate] is [dataStore.getStartDate()] and
    [today] is [startOfDay(new Date())], both read by the render. *)

Definition visibleDates (viewStartDate : Date) : list jsstring :=
  map (fun i => format (addDays viewStartDate (Z.of_nat i)))
      (seq 0 (Z.to_nat VISIBLE_DAYS)).

Definition allDates (startDate today : Date) : list jsstring :=
  let totalDays := differenceInDays today startDate + 1 in
  map (fun i => format (subDays today (Z.of_nat i)))
      (seq 0 (Z.to_nat totalDays)).

Definition canGoBack (startDate viewStartDate : Date) : bool :=
  viewStartDate >? startDate.

Definition canGoForward (today viewStartDate : Date) : bool :=
  let lastVisibleDate := addDays viewStartDate (VISIBLE_DAYS - 1) in
  lastVisibleDate <? today.

(** [goBack()], as the next value of [viewStartDate]. *)
Definition goBack (startDate viewStartDate : Date) : Date :=
  if canGoBack startDate viewStartDate then
    let newDate := subDays viewStartDate VISIBLE_DAYS in
    if newDate <? startDate then startDate else newDate
  else viewStartDate.

(** [goForward()], as the next value of [viewStartDate]. *)
Definition goForward (today viewStartDate : Date) : Date :=
  if canGoForward today viewStartDate then
    let newDate := addDays viewStartDate VISIBLE_DAYS in
    let maxStartDate := subDays today (VISIBLE_DAYS - 1) in
    if newDate >? maxStartDate then maxStartDate else newDate
  else viewStartDate.

(** The values [viewStartDate] takes while the day is [today]: the initial
    one, and those the two navigation buttons lead to, whatever the
    history start date is when the button is pressed. *)
Inductive reachable (today : Date) : Date -> Prop :=
| reach_initial :
    reachable today (subDays today (VISIBLE_DAYS - 1))
| reach_goBack startDate v :
    reachable today v -> reachable today (goBack startDate v)
| reach_goForward v :
    reachable today v -> reachable today (goForward today v).

(** *** Lookups over the cached collections *)

Definition isLogged (activityId date : jsstring) (h : t) : bool :=
  existsb (fun log => streq (Log.activity_id log) activityId
                      && streq (Log.logged_date log) date) (logs h).

Definition getNoteForDate (date : jsstring) (h : t) : option Note.t :=
  find (fun note => streq (Note.logged_date note) date) (notes h).

(** *** Mutations: the store is called, then the cache is read again *)

Section Host.

Variable supabase : bool.
Variable newDate : jsstring -> Date.

(** The effect run after the first render. *)
Definition init (r : Tables) (s : Sampling) (h : t) : t :=
  let st := DataStore.initialize supabase newDate r s (store h) in
  make st (DataStore.getActivities st) (DataStore.getLogs st)
       (DataStore.getNotes st) false (viewStartDate h).

Definition toggleLog (e : Effects) (activityId date : jsstring) (h : t) : t :=
  let st := DataStore.after
              (DataStore.toggleLog supabase newDate e activityId date (store h)) in
  make st (activities h) (DataStore.getLogs st) (notes h) (isLoading h)
       (viewStartDate h).

Definition addActivity (e : Effects) (name : jsstring) (h : t) : t :=
  if truthy (trim name) then
    let st := DataStore.after
                (DataStore.addActivity supabase newDate e (trim name) (store h)) in
    make st (DataStore.getActivities st) (logs h) (notes h) (isLoading h)
         (viewStartDate h)
  else h.

Definition deleteActivity (e : Effects) (activityId : jsstring) (h : t) : t :=
  let st := DataStore.after
              (DataStore.deleteActivity supabase e activityId (store h)) in
  make st (DataStore.getActivities st) (DataStore.getLogs st) (notes h)
       (isLoading h) (viewStartDate h).

Definition editActivity (e : Effects) (activityId newName : jsstring) (h : t)
  : t :=
  if truthy (trim newName) then
    let st := DataStore.after
                (DataStore.editActivity supabase e activityId (trim newName)
                   (store h)) in
    make st (DataStore.getActivities st) (logs h) (notes h) (isLoading h)
         (viewStartDate h)
  else h.

Definition saveNote (e : Effects) (date text : jsstring) (h : t) : t :=
  let st :=
    if truthy (trim text) then
      DataStore.after
        (DataStore.saveNote supabase newDate e date (trim text) (store h))
    else
      DataStore.after (DataStore.deleteNote supabase e date (store h)) in
  make st (activities h) (logs h) (DataStore.getNotes st) (isLoading h)
       (viewStartDate h).

(** [toggleLog(activityId, date)] called once for each element of [es],
    in order. *)
Definition toggles (activityId date : jsstring) (es : list Effects) (h : t)
  : t :=
  fold_left (fun h e => toggleLog e activityId date h) es h.

End Host.

End UseTracker.

(** * Notions used by the statements *)

(** ** The Logs of a pair *)

(** The test both [getLogForActivityAndDate] and [isLogged] apply. *)
Definition samePair (activityId date : jsstring) (log : Log.t) : bool :=
  streq (Log.activity_id log) activityId && streq (Log.logged_date log) date.

(** The Logs the store holds for a pair. *)
Definition logsOfPair (activityId date : jsstring) (st : DataStore.t)
  : list Log.t :=
  filter (samePair activityId date) (DataStore.logs st).

(** ** Sample inputs *)

(** Effects of a call whose remote mirror fails. *)
Definition demoEffects (n : Z) : Effects :=
  mkEffects (js "u" ++ [digit n]) (1704067200000 + n) Failed.

(** A store with three Activities, three Logs and two Notes. *)
Definition demoStore : DataStore.t :=
  DataStore.make
    [Activity.make (js "a") (js "A") 0 0;
     Activity.make (js "b") (js "B") 0 1;
     Activity.make (js "c") (js "C") 0 2]
    [Log.make (js "l1") (js "a") (js "2024-01-01") 0;
     Log.make (js "l2") (js "b") (js "2024-01-01") 0;
     Log.make (js "l3") (js "b") (js "2024-01-02") 0]
    [Note.make (js "n1") (js "2024-01-01") (js "first") 0 0;
     Note.make (js "n2") (js "2024-01-02") (js "second") 0 0]
    0 true false.

(** The hook over [demoStore], once loaded. *)
Definition demoTracker : UseTracker.t :=
  UseTracker.make demoStore (DataStore.getActivities demoStore)
    (DataStore.getLogs demoStore) (DataStore.getNotes demoStore) false
    (UseTracker.initialViewStartDate 1704844800000).

(** Draws for the sample data: the comparison with 0.6 succeeds on even
    days. *)
Definition demoSampling : Sampling :=
  mkSampling 1704888000000
    (fun i => js "activity-" ++ [digit (Z.of_nat i)])
    (fun a i => js "log-" ++ [digit (Z.of_nat a)] ++ js "-" ++ pad2 (Z.of_nat i))
    (fun i => js "note-" ++ [digit (Z.of_nat i)])
    (fun _ i => Nat.even i).

(** ** What a mutation leaves in the store *)

(** Everything the store holds apart from the switch [useSupabase]. *)
Definition localState (st : DataStore.t)
  : list Activity.t * list Log.t * list Note.t * Date * bool :=
  (DataStore.activities st, DataStore.logs st, DataStore.notes st,
   DataStore.startDate st, DataStore.initialized st).

(** ** Sequences of mutations *)

(** A call of one of the six mutating methods of the store. *)
Inductive Mutation :=
| AddActivity (name : jsstring)
| ToggleLog (activityId date : jsstring)
| SaveNote (date text : jsstring)
| DeleteNote (date : jsstring)
| DeleteActivity (activityId : jsstring)
| EditActivity (activityId newName : jsstring).

(** The store after one call, made with the effects [fst c]. *)
Definition perform (supabase : bool) (newDate : jsstring -> Date)
    (st : DataStore.t) (c : Effects * Mutation) : DataStore.t :=
  let e := fst c in
  match snd c with
  | AddActivity name =>
      DataStore.after (DataStore.addActivity supabase newDate e name st)
  | ToggleLog activityId date =>
      DataStore.after (DataStore.toggleLog supabase newDate e activityId date st)
  | SaveNote date text =>
      DataStore.after (DataStore.saveNote supabase newDate e date text st)
  | DeleteNote date =>
      DataStore.after (DataStore.deleteNote supabase e date st)
  | DeleteActivity activityId =>
      DataStore.after (DataStore.deleteActivity supabase e activityId st)
  | EditActivity activityId newName =>
      DataStore.after (DataStore.editActivity supabase e activityId newName st)
  end.

(** The store after the calls of [cs], made in order. *)
Definition performAll (supabase : bool) (newDate : jsstring -> Date)
    (cs : list (Effects * Mutation)) (st : DataStore.t) : DataStore.t :=
  fold_left (perform supabase newDate) cs st.

(** ** Shapes of the collections *)

Definition pairOf (log : Log.t) : jsstring * jsstring :=
  (Log.activity_id log, Log.logged_date log).

(** No two Logs for the same activity and date. *)
Definition onePerPair (st : DataStore.t) : Prop :=
  NoDup (map pairOf (DataStore.logs st)).

(** No two Notes for the same date. *)
Definition onePerDate (st : DataStore.t) : Prop :=
  NoDup (map Note.logged_date (DataStore.notes st)).

(** No two Activities with the same order_index. *)
Definition distinctOrder (st : DataStore.t) : Prop :=
  NoDup (map Activity.order_index (DataStore.activities st)).

(** A sequence of calls on [demoStore]. *)
Definition demoRun : list (Effects * Mutation) :=
  [(demoEffects 1, ToggleLog (js "a") (js "2024-01-02"));
   (demoEffects 2, ToggleLog (js "b") (js "2024-01-01"));
   (demoEffects 3, SaveNote (js "2024-01-01") (js "again"));
   (demoEffects 4, AddActivity (js "D"));
   (demoEffects 5, DeleteActivity (js "a"));
   (demoEffects 6, EditActivity (js "c") (js "C2"));
   (demoEffects 7, DeleteNote (js "2024-01-02"));
   (demoEffects 8, SaveNote (js "2024-01-05") (js "new"))].

(** The order [sort((a, b) => key(a) - key(b))] arranges an array in. *)
Definition leKey {A : Type} (key : A -> Z) (a b : A) : Prop := key a <= key b.

(** [addActivity(name)] called for each name of [names], in order. *)
Definition addAll (names : list (Effects * jsstring))
  : list (Effects * Mutation) :=
  map (fun en => (fst en, AddActivity (snd en))) names.

(** ** The caches of the hook *)

(** The three cached collections are those the store returns now. *)
Definition synced (h : UseTracker.t) : Prop :=
  UseTracker.activities h = DataStore.getActivities (UseTracker.store h)
  /\ UseTracker.logs h = DataStore.getLogs (UseTracker.store h)
  /\ UseTracker.notes h = DataStore.getNotes (UseTracker.store h).

(** ** function Grid (components/Grid.tsx): the columns of the mobile grid *)

Module Grid.

Definition MOBILE_VISIBLE_ACTIVITIES : Z := 3.

(** [l.slice(start, stop)] for integers [start] and [stop]. *)
Definition slice {A : Type} (l : list A) (start stop : Z) : list A :=
  let len := Z.of_nat (List.length l) in
  let k := if start <? 0 then Z.max (len + start) 0 else Z.min start len in
  let final := if stop <? 0 then Z.max (len + stop) 0 else Z.min stop len in
  firstn (Z.to_nat (final - k)) (skipn (Z.to_nat k) l).

Definition mobileVisibleActivities (activities : list Activity.t)
    (mobileActivityIndex : Z) : list Activity.t :=
  slice activities mobileActivityIndex
        (mobileActivityIndex + MOBILE_VISIBLE_ACTIVITIES).

(** [goLeftMobile()], as the next value of [mobileActivityIndex]. *)
Definition goLeftMobile (mobileActivityIndex : Z) : Z :=
  if mobileActivityIndex >? 0 then Z.max 0 (mobileActivityIndex - 1)
  else mobileActivityIndex.

(** [goRightMobile()], as the next value of [mobileActivityIndex]. *)
Definition goRightMobile (activities : list Activity.t)
    (mobileActivityIndex : Z) : Z :=
  let length := Z.of_nat (List.length activities) in
  if mobileActivityIndex + MOBILE_VISIBLE_ACTIVITIES <? length then
    Z.min (length - MOBILE_VISIBLE_ACTIVITIES) (mobileActivityIndex + 1)
  else mobileActivityIndex.

(** The index shows a full page of the activities, or all of them when
    they are fewer than a page. *)
Definition inRange (activities : list Activity.t) (mobileActivityIndex : Z)
  : Prop :=
  0 <= mobileActivityIndex
  <= Z.max 0 (Z.of_nat (List.length activities) - MOBILE_VISIBLE_ACTIVITIES).

End Grid.

(** ** Sequences of navigation steps *)

(** One press of a navigation button: back when [back] is true, forward
    otherwise. *)
Definition press (startDate today : Date) (v : Date) (back : bool) : Date :=
  if back then UseTracker.goBack startDate v
  else UseTracker.goForward today v.

Definition presses (startDate today : Date) (bs : list bool) (v : Date) : Date :=
  fold_left (press startDate today) bs v.

(** * Properties *)

(** ** Strings and arrays *)

Lemma streq_true_iff (a b : jsstring) : streq a b = true <-> a = b.
Proof.
  revert b; induction a as [|x a IH]; intros [|y b]; simpl;
    try (split; [discriminate | congruence]); try tauto.
  rewrite andb_true_iff, N.eqb_eq, IH. split.
  - intros [-> ->]; reflexivity.
  - intros H; injection H; auto.
Qed.

Lemma streq_refl (a : jsstring) : streq a a = true.
Proof. apply streq_true_iff; reflexivity. Qed.

Lemma streq_false_iff (a b : jsstring) : streq a b = false <-> a <> b.
Proof.
  rewrite <- streq_true_iff. destruct (streq a b); split; congruence.
Qed.

Lemma find_none_filter {A : Type} (p : A -> bool) (l : list A) :
  find p l = None <-> filter p l = [].
Proof.
  induction l as [|x l IH]; simpl; [tauto|].
  destruct (p x); [split; discriminate | exact IH].
Qed.

Lemma filter_single_find {A : Type} (p : A -> bool) (l : list A) (x : A) :
  filter p l = [x] -> find p l = Some x.
Proof.
  induction l as [|y l IH]; simpl; [discriminate|].
  destruct (p y); [congruence | exact IH].
Qed.

Lemma existsb_filter {A : Type} (p : A -> bool) (l : list A) :
  existsb p l = match filter p l with [] => false | _ => true end.
Proof.
  induction l as [|x l IH]; simpl; [reflexivity|].
  destruct (p x); simpl; [reflexivity | exact IH].
Qed.

Lemma filter_filter_comm {A : Type} (p q : A -> bool) (l : list A) :
  filter p (filter q l) = filter q (filter p l).
Proof.
  induction l as [|x l IH]; simpl; [reflexivity|].
  destruct (p x) eqn:Hp, (q x) eqn:Hq; simpl; rewrite ?Hp, ?Hq, IH; reflexivity.
Qed.

Lemma filter_all {A : Type} (p : A -> bool) (l : list A) :
  (forall x, In x l -> p x = true) -> filter p l = l.
Proof.
  induction l as [|x l IH]; simpl; intros H; [reflexivity|].
  rewrite (H x (or_introl eq_refl)), IH; auto.
Qed.

Section Toggle.

Variable supabase : bool.
Variable newDate : jsstring -> Date.
Variables activityId date : jsstring.

(** Toggling on: no Log of the pair before, the returned one after. *)
Lemma toggleLog_absent (e : Effects) (st : DataStore.t) :
  logsOfPair activityId date st = [] ->
  exists l,
    DataStore.returned
      (DataStore.toggleLog supabase newDate e activityId date st) = Some l
    /\ Log.activity_id l = activityId /\ Log.logged_date l = date
    /\ DataStore.logs
         (DataStore.after
            (DataStore.toggleLog supabase newDate e activityId date st))
       = DataStore.logs st ++ [l]
    /\ logsOfPair activityId date
         (DataStore.after
            (DataStore.toggleLog supabase newDate e activityId date st))
       = [l].
Proof.
  intros Hnone. unfold DataStore.toggleLog, DataStore.getLogForActivityAndDate.
  assert (Hfind : find (samePair activityId date) (DataStore.logs st) = None)
    by (apply find_none_filter; exact Hnone).
  unfold samePair in Hfind. rewrite Hfind.
  set (l0 := Log.make (uuidv4 e) activityId date (now e)).
  assert (Hcase : forall l, Log.activity_id l = activityId ->
                            Log.logged_date l = date ->
            logsOfPair activityId date
              (DataStore.with_logs (DataStore.logs st ++ [l]) st) = [l]).
  { intros l Ha Hd. unfold logsOfPair in *. simpl.
    rewrite filter_app, Hnone. simpl. unfold samePair at 1.
    rewrite Ha, Hd, !streq_refl. reflexivity. }
  destruct (DataStore.remote supabase st); [destruct (reply e) as [|[data|]]|];
    simpl; eexists; (split; [reflexivity|]); simpl; repeat split;
    apply Hcase; reflexivity.
Qed.

(** Toggling off: the single Log of the pair before, none after. *)
Lemma toggleLog_single (e : Effects) (st : DataStore.t) (x : Log.t) :
  logsOfPair activityId date st = [x] ->
  DataStore.returned
    (DataStore.toggleLog supabase newDate e activityId date st) = None
  /\ logsOfPair activityId date
       (DataStore.after
          (DataStore.toggleLog supabase newDate e activityId date st))
     = [].
Proof.
  intros Hone. unfold DataStore.toggleLog, DataStore.getLogForActivityAndDate.
  assert (Hfind : find (samePair activityId date) (DataStore.logs st) = Some x)
    by (apply filter_single_find; exact Hone).
  unfold samePair in Hfind. rewrite Hfind. simpl. split; [reflexivity|].
  unfold logsOfPair in *. simpl.
  rewrite filter_filter_comm, Hone. simpl. rewrite streq_refl. reflexivity.
Qed.

(** The Logs of the pair along a run of toggles that starts without any. *)
Lemma toggles_logsOfPair (es : list Effects) (h : UseTracker.t) :
  logsOfPair activityId date (UseTracker.store h) = [] ->
  let h' := UseTracker.toggles supabase newDate activityId date es h in
  if Nat.odd (List.length es)
  then exists x, logsOfPair activityId date (UseTracker.store h') = [x]
  else logsOfPair activityId date (UseTracker.store h') = [].
Proof.
  intros H0. induction es as [|e es IH] using rev_ind; simpl; [exact H0|].
  unfold UseTracker.toggles in *. rewrite fold_left_app. simpl.
  rewrite length_app. simpl. rewrite Nat.add_1_r, Nat.odd_succ, <- Nat.negb_odd.
  set (h1 := fold_left _ es h) in *.
  destruct (Nat.odd (List.length es)); simpl.
  - destruct IH as [x Hx].
    exact (proj2 (toggleLog_single e (UseTracker.store h1) x Hx)).
  - destruct (toggleLog_absent e (UseTracker.store h1) IH) as (l & _ & _ & _ & _ & Hl).
    exists l. exact Hl.
Qed.

End Toggle.

Lemma toggles_logs_synced supabase newDate activityId date es h :
  UseTracker.logs h = DataStore.getLogs (UseTracker.store h) ->
  UseTracker.logs (UseTracker.toggles supabase newDate activityId date es h)
  = DataStore.getLogs
      (UseTracker.store (UseTracker.toggles supabase newDate activityId date es h)).
Proof.
  intros H. induction es as [|e es _] using rev_ind; [exact H|].
  unfold UseTracker.toggles. rewrite fold_left_app. reflexivity.
Qed.

(** C1.  Toggle invariant.  Start from a state without a Log for the pair
    (activityId, date).  After any run of [toggleLog(activityId, date)]
    calls, the store holds exactly one Log for the pair when the number of
    calls is odd and none when it is even; [isLogged(activityId, date)]
    tells which; and the next call flips the presence: it deletes the Log
    and returns null when one is present, it creates and returns a new Log
    of the pair when none is. *)
Theorem toggleLog_flips_presence
    (supabase : bool) (newDate : jsstring -> Date)
    (activityId date : jsstring) (h : UseTracker.t) :
  DataStore.getLogForActivityAndDate activityId date (UseTracker.store h) = None ->
  UseTracker.logs h = DataStore.getLogs (UseTracker.store h) ->
  forall es : list Effects,
    let h' := UseTracker.toggles supabase newDate activityId date es h in
    let odd := Nat.odd (List.length es) in
    List.length (logsOfPair activityId date (UseTracker.store h'))
    = (if odd then 1 else 0)%nat
    /\ UseTracker.isLogged activityId date h' = odd
    /\ forall e : Effects,
         let o := DataStore.toggleLog supabase newDate e activityId date
                    (UseTracker.store h') in
         if odd
         then DataStore.returned o = None
              /\ DataStore.getLogForActivityAndDate activityId date
                   (DataStore.after o) = None
         else exists l,
              DataStore.returned o = Some l
              /\ Log.activity_id l = activityId /\ Log.logged_date l = date
              /\ DataStore.getLogForActivityAndDate activityId date
                   (DataStore.after o) = Some l.
Proof.
  intros Hnone Hsync es h' odd.
  assert (H0 : logsOfPair activityId date (UseTracker.store h) = [])
    by (apply find_none_filter; exact Hnone).
  pose proof (toggles_logsOfPair supabase newDate activityId date es h H0) as Hrun.
  pose proof (toggles_logs_synced supabase newDate activityId date es h Hsync) as Hs.
  fold h' in Hs. simpl in Hrun. fold h' in Hrun. fold odd in Hrun.
  assert (Hlogged : UseTracker.isLogged activityId date h'
                    = match logsOfPair activityId date (UseTracker.store h') with
                      | [] => false | _ => true end).
  { unfold UseTracker.isLogged. rewrite Hs. apply existsb_filter. }
  destruct odd.
  - destruct Hrun as [x Hx]. rewrite Hlogged, Hx.
    split; [reflexivity|]. split; [reflexivity|]. intros e o. split.
    + apply (toggleLog_single supabase newDate activityId date e _ x Hx).
    + apply find_none_filter.
      apply (toggleLog_single supabase newDate activityId date e _ x Hx).
  - rewrite Hlogged, Hrun.
    split; [reflexivity|]. split; [reflexivity|]. intros e o.
    destruct (toggleLog_absent supabase newDate activityId date e _ Hrun)
      as (l & Hr & Ha & Hd & _ & Hl).
    exists l. repeat split; try assumption.
    apply filter_single_find. exact Hl.
Qed.

Lemma toggleLog_flips_presence_witness :
  let h := UseTracker.mount (DataStore.create true 1704067200000) 1704067200000 in
  let h' := UseTracker.toggles true (fun _ => 0) (js "A") (js "2024-01-01")
              [demoEffects 1; demoEffects 2; demoEffects 3] h in
  List.length (logsOfPair (js "A") (js "2024-01-01") (UseTracker.store h')) = 1%nat
  /\ UseTracker.isLogged (js "A") (js "2024-01-01") h' = true.
Proof.
  intros h h'.
  pose proof (toggleLog_flips_presence true (fun _ => 0) (js "A") (js "2024-01-01")
                h eq_refl eq_refl [demoEffects 1; demoEffects 2; demoEffects 3])
    as (H1 & H2 & _).
  split; [exact H1 | exact H2].
Defined.

(** ** The order index of a new Activity *)

Lemma fold_max_ge (l : list Z) (x : Z) :
  In x l -> x <= fold_right Z.max (-1) l.
Proof.
  induction l as [|y l IH]; simpl; [tauto|].
  intros [-> | H]; [lia | specialize (IH H); lia].
Qed.

Lemma addActivity_order_index_eq supabase newDate e name st :
  Activity.order_index
    (DataStore.returned (DataStore.addActivity supabase newDate e name st))
  = fold_right Z.max (-1) (map Activity.order_index (DataStore.activities st)) + 1.
Proof.
  unfold DataStore.addActivity.
  destruct (DataStore.remote supabase st); [destruct (reply e) as [|[data|]]|];
    reflexivity.
Qed.

Lemma addActivity_activities supabase newDate e name st :
  DataStore.activities
    (DataStore.after (DataStore.addActivity supabase newDate e name st))
  = DataStore.activities st
    ++ [DataStore.returned (DataStore.addActivity supabase newDate e name st)].
Proof.
  unfold DataStore.addActivity.
  destruct (DataStore.remote supabase st); [destruct (reply e) as [|[data|]]|];
    reflexivity.
Qed.

(** C2, as the code has it.  [addActivity] appends an Activity whose
    order_index is strictly greater than that of every Activity of the
    store, and 0 when the store has none.  After [deleteActivity] the next
    [addActivity] does not take the order_index of a deleted Activity
    whenever an Activity that stays has an order_index at least as large. *)
Theorem addActivity_order_index
    (supabase : bool) (newDate : jsstring -> Date) (st : DataStore.t) :
  (forall (e : Effects) (name : jsstring),
     let o := DataStore.addActivity supabase newDate e name st in
     (forall b, In b (DataStore.activities st) ->
                Activity.order_index b < Activity.order_index (DataStore.returned o))
     /\ (DataStore.activities st = [] ->
         Activity.order_index (DataStore.returned o) = 0)
     /\ DataStore.activities (DataStore.after o)
        = DataStore.activities st ++ [DataStore.returned o])
  /\ (forall (e1 e2 : Effects) (activityId name : jsstring) (b c : Activity.t),
        In b (DataStore.activities st) -> Activity.id b = activityId ->
        In c (DataStore.activities st) -> Activity.id c <> activityId ->
        Activity.order_index b <= Activity.order_index c ->
        let st1 := DataStore.after (DataStore.deleteActivity supabase e1 activityId st) in
        Activity.order_index b
        < Activity.order_index
            (DataStore.returned (DataStore.addActivity supabase newDate e2 name st1))).
Proof.
  split.
  - intros e name o. unfold o. rewrite addActivity_order_index_eq. repeat split.
    + intros b Hb.
      pose proof (fold_max_ge (map Activity.order_index (DataStore.activities st))
                    (Activity.order_index b) (in_map _ _ _ Hb)). lia.
    + intros ->. reflexivity.
    + apply addActivity_activities.
  - intros e1 e2 activityId name b c Hb Hidb Hc Hidc Hle st1.
    rewrite addActivity_order_index_eq.
    assert (Hin : In c (DataStore.activities st1)).
    { unfold st1, DataStore.deleteActivity. simpl. apply filter_In. split; [exact Hc|].
      apply negb_true_iff, streq_false_iff. exact Hidc. }
    pose proof (fold_max_ge (map Activity.order_index (DataStore.activities st1))
                  (Activity.order_index c) (in_map _ _ _ Hin)). lia.
Qed.

Lemma addActivity_order_index_witness :
  Activity.order_index (Activity.make (js "b") (js "B") 0 1)
  < Activity.order_index
      (DataStore.returned
         (DataStore.addActivity false (fun _ => 0) (demoEffects 2) (js "D")
            (DataStore.after
               (DataStore.deleteActivity false (demoEffects 1) (js "b") demoStore)))).
Proof.
  apply (proj2 (addActivity_order_index false (fun _ => 0) demoStore)
           (demoEffects 1) (demoEffects 2) (js "b") (js "D")
           (Activity.make (js "b") (js "B") 0 1)
           (Activity.make (js "c") (js "C") 0 2)).
  - simpl. right. left. reflexivity.
  - reflexivity.
  - simpl. right. right. left. reflexivity.
  - discriminate.
  - simpl. lia.
Defined.

(** C2, as the specification states it, fails: the index freed by deleting
    the Activity with the largest order_index is given to the next one.
    Two Activities are added to an empty store (indices 0 and 1), the
    second is deleted, and a third is added: it receives index 1 again. *)
Lemma addActivity_reuses_freed_index :
  let add e name st := DataStore.addActivity false (fun _ => 0) e name st in
  let o1 := add (demoEffects 1) (js "A") (DataStore.create false 0) in
  let o2 := add (demoEffects 2) (js "B") (DataStore.after o1) in
  let deleted := DataStore.returned o2 in
  let st3 := DataStore.after
               (DataStore.deleteActivity false (demoEffects 3)
                  (Activity.id deleted) (DataStore.after o2)) in
  let o4 := add (demoEffects 4) (js "C") st3 in
  DataStore.activities (DataStore.after o2) = [DataStore.returned o1; deleted]
  /\ DataStore.activities st3 = [DataStore.returned o1]
  /\ Activity.order_index deleted = 1
  /\ Activity.order_index (DataStore.returned o4) = 1.
Proof. vm_compute. repeat split; reflexivity. Qed.

(** ** Notes saved with a blank text *)

Lemma trimStart_nil_iff (s : jsstring) :
  trimStart s = [] <-> forallb isWhiteSpace s = true.
Proof.
  induction s as [|c s IH]; simpl; [tauto|].
  destruct (isWhiteSpace c); simpl; [exact IH | split; discriminate].
Qed.

Lemma trimStart_head (s t : jsstring) (c : N) :
  trimStart s = c :: t -> isWhiteSpace c = false.
Proof.
  induction s as [|x s IH]; simpl; [discriminate|].
  destruct (isWhiteSpace x) eqn:Hx; [exact IH|].
  intros H; injection H as -> _. exact Hx.
Qed.

(** A text is empty once trimmed exactly when it is made of white space. *)
Lemma trim_nil_iff (s : jsstring) :
  trim s = [] <-> forallb isWhiteSpace s = true.
Proof.
  unfold trim. split.
  - intros H. apply (f_equal (@rev N)) in H. rewrite rev_involutive in H.
    simpl in H. apply trimStart_nil_iff in H.
    destruct (trimStart s) as [|c t] eqn:Ht; [apply trimStart_nil_iff; exact Ht|].
    pose proof (trimStart_head s t c Ht) as Hc.
    rewrite forallb_forall in H.
    rewrite (H c) in Hc; [discriminate|].
    apply in_rev. rewrite rev_involutive. left. reflexivity.
  - intros H. apply trimStart_nil_iff in H. rewrite H. reflexivity.
Qed.

Lemma find_filter_negb {A : Type} (p : A -> bool) (l : list A) :
  find p (filter (fun x => negb (p x)) l) = None.
Proof.
  induction l as [|x l IH]; simpl; [reflexivity|].
  destruct (p x) eqn:Hp; simpl; [exact IH | rewrite Hp; exact IH].
Qed.

Lemma filter_negb_find_none {A : Type} (p : A -> bool) (l : list A) :
  find p l = None -> filter (fun x => negb (p x)) l = l.
Proof.
  intros H. apply filter_all. intros x Hx.
  rewrite (find_none p l H x Hx). reflexivity.
Qed.

(** The method of the store itself does not look at the text: called with
    an empty text for a date without a Note, it stores a Note whose text
    is empty.  The blank case is decided by the hook. *)
Lemma DataStore_saveNote_stores_empty_text supabase newDate e date st :
  DataStore.getNoteForDate date st = None ->
  let o := DataStore.saveNote supabase newDate e date [] st in
  DataStore.notes (DataStore.after o) = DataStore.notes st ++ [DataStore.returned o]
  /\ Note.text (DataStore.returned o) = []
  /\ Note.logged_date (DataStore.returned o) = date.
Proof.
  intros H. unfold DataStore.saveNote. rewrite H.
  destruct (DataStore.remote supabase st); [destruct (reply e) as [|[data|]]|];
    simpl; repeat split.
Qed.

(** C3.  Note collapse.  [saveNote(d, text)] with a text that is empty once
    trimmed removes the Note of [d] when there is one and changes nothing
    when there is none: it never creates a Note, the Notes of the other
    dates stay as they are, in their order, and Activities and Logs are
    not touched.  The cached notes are those of the store afterwards. *)
Theorem saveNote_blank_text
    (supabase : bool) (newDate : jsstring -> Date) (e : Effects)
    (date text : jsstring) (h : UseTracker.t) :
  trim text = [] ->
  let h' := UseTracker.saveNote supabase newDate e date text h in
  let st := UseTracker.store h in
  let st' := UseTracker.store h' in
  DataStore.notes st'
  = filter (fun note => negb (streq (Note.logged_date note) date))
           (DataStore.notes st)
  /\ DataStore.getNoteForDate date st' = None
  /\ (DataStore.getNoteForDate date st = None -> st' = st)
  /\ DataStore.activities st' = DataStore.activities st
  /\ DataStore.logs st' = DataStore.logs st
  /\ UseTracker.notes h' = DataStore.notes st'.
Proof.
  intros Hblank h' st st'.
  assert (Hst' : st' = DataStore.with_notes
                         (filter (fun note => negb (streq (Note.logged_date note) date))
                                 (DataStore.notes st)) st).
  { unfold st', h', UseTracker.saveNote. rewrite Hblank. reflexivity. }
  rewrite Hst'. simpl. repeat split.
  - apply (find_filter_negb (fun note => streq (Note.logged_date note) date)).
  - intros Hnone. unfold DataStore.with_notes.
    rewrite (filter_negb_find_none
               (fun note => streq (Note.logged_date note) date) _ Hnone).
    destruct st; reflexivity.
  - unfold h', UseTracker.saveNote. rewrite Hblank. reflexivity.
Qed.

Lemma saveNote_blank_text_witness :
  (* saveNote(d, "  ") when no note exists for d *)
  UseTracker.store
    (UseTracker.saveNote true (fun _ => 0) (demoEffects 1) (js "2024-01-03")
       (js "  ") (demoTracker))
  = demoStore
  (* saveNote(d, "") when a note exists for d *)
  /\ DataStore.getNoteForDate (js "2024-01-01")
       (UseTracker.store
          (UseTracker.saveNote true (fun _ => 0) (demoEffects 1) (js "2024-01-01")
             [] demoTracker))
     = None.
Proof.
  split.
  - apply (saveNote_blank_text true (fun _ => 0) (demoEffects 1) (js "2024-01-03")
             (js "  ") demoTracker eq_refl).
    reflexivity.
  - apply (saveNote_blank_text true (fun _ => 0) (demoEffects 1) (js "2024-01-01")
             [] demoTracker eq_refl).
Defined.

(** ** The date window *)

Ltac dates :=
  unfold UseTracker.initialViewStartDate, UseTracker.goBack, UseTracker.goForward,
    UseTracker.canGoBack, UseTracker.canGoForward, subDays, addDays,
    UseTracker.VISIBLE_DAYS, MS_PER_DAY in *.

Lemma canGoBack_iff (startDate v : Date) :
  UseTracker.canGoBack startDate v = true <-> v > startDate.
Proof. dates. rewrite Z.gtb_gt. lia. Qed.

Lemma goBack_max (startDate v : Date) :
  startDate <= v ->
  UseTracker.goBack startDate v
  = Z.max (subDays v UseTracker.VISIBLE_DAYS) startDate.
Proof.
  intros H. dates.
  destruct (v >? startDate) eqn:Hgt.
  - destruct (v + - (7) * 86400000 <? startDate) eqn:Hlt;
      [apply Z.ltb_lt in Hlt | apply Z.ltb_ge in Hlt]; lia.
  - rewrite Z.gtb_ltb in Hgt. apply Z.ltb_ge in Hgt. lia.
Qed.

Lemma goBack_before_startDate (startDate v : Date) :
  v <= startDate -> UseTracker.goBack startDate v = v.
Proof.
  intros H. dates.
  destruct (v >? startDate) eqn:Hgt; [|reflexivity].
  apply Z.gtb_gt in Hgt. lia.
Qed.

(** [n] steps back are enough from a start at most [n] windows after the
    history start. *)
Lemma goBack_iter (startDate : Date) (n : nat) :
  forall v, startDate <= v ->
            v <= addDays startDate (Z.of_nat n * UseTracker.VISIBLE_DAYS) ->
            Nat.iter n (UseTracker.goBack startDate) v = startDate.
Proof.
  induction n as [|n IH]; intros v Hlo Hhi.
  - simpl. dates. lia.
  - rewrite Nat.iter_succ_r. apply IH.
    + rewrite goBack_max by exact Hlo. lia.
    + rewrite goBack_max by exact Hlo. dates. lia.
Qed.

(** C4, as the code has it.  [can_go_back] holds exactly when the window
    starts after the history start date.  From a window that starts on or
    after the history start date, going back leads to the later of "N days
    earlier" and the history start date, so never before the latter;
    repeated, it ends at the history start date and stays there, and
    [can_go_back] is false exactly there.  From a window that starts before
    the history start date, going back changes nothing. *)
Theorem goBack_clamped (startDate viewStartDate : Date) :
  (UseTracker.canGoBack startDate viewStartDate = true
   <-> viewStartDate > startDate)
  /\ (startDate <= viewStartDate ->
      UseTracker.goBack startDate viewStartDate
      = Z.max (subDays viewStartDate UseTracker.VISIBLE_DAYS) startDate
      /\ startDate <= UseTracker.goBack startDate viewStartDate
      /\ (UseTracker.canGoBack startDate viewStartDate = false
          <-> viewStartDate = startDate)
      /\ exists k : nat, forall j : nat, (k <= j)%nat ->
           Nat.iter j (UseTracker.goBack startDate) viewStartDate = startDate)
  /\ (viewStartDate < startDate ->
      UseTracker.goBack startDate viewStartDate = viewStartDate).
Proof.
  split; [apply canGoBack_iff|]. split.
  - intros Hle. split; [apply goBack_max; exact Hle|]. split; [|split].
    + rewrite goBack_max by exact Hle. lia.
    + pose proof (canGoBack_iff startDate viewStartDate) as Hiff.
      destruct (UseTracker.canGoBack startDate viewStartDate); split; intros H.
      * discriminate.
      * assert (viewStartDate > startDate) by (apply Hiff; reflexivity). lia.
      * destruct (Z.eq_dec viewStartDate startDate) as [Heq|Hne]; [exact Heq|].
        assert (true = false) by (symmetry; apply Hiff; lia). discriminate.
      * reflexivity.
    + exists (Z.to_nat (viewStartDate - startDate)). intros j Hj.
      apply goBack_iter; [exact Hle|]. dates. lia.
  - intros Hlt. apply goBack_before_startDate. lia.
Qed.

Lemma goBack_clamped_witness :
  (* history start = day 0, today = day 40, window on days 34..40 *)
  UseTracker.goBack 0 (34 * MS_PER_DAY) = 27 * MS_PER_DAY
  /\ exists k : nat, forall j : nat, (k <= j)%nat ->
       Nat.iter j (UseTracker.goBack 0) (34 * MS_PER_DAY) = 0.
Proof.
  assert (H : 0 <= 34 * MS_PER_DAY) by (unfold MS_PER_DAY; lia).
  destruct (proj1 (proj2 (goBack_clamped 0 (34 * MS_PER_DAY))) H)
    as (Hmax & _ & _ & Hk).
  split; [rewrite Hmax; reflexivity | exact Hk].
Defined.

(** C4, as the specification states it, fails.  The remote store holds a
    single Log, dated two days before today: the history starts on that
    day, while the first window starts six days before today.  Going back
    is then refused: the window keeps starting before the history start
    date and never comes to start on it. *)
Lemma goBack_stuck_before_startDate :
  let now := 19732 * MS_PER_DAY + 43200000 in        (* 2024-01-10 12:00 *)
  let newDate := fun _ : jsstring => 19730 * MS_PER_DAY in
  let rows := mkTables (Some [mkDbActivity (js "a") (js "A") (js "t") 0])
                (Some [mkDbLog (js "l") (js "a") (js "2024-01-08") (js "t")])
                (Some []) in
  let st := DataStore.initialize true newDate rows demoSampling
              (DataStore.create true now) in
  let startDate := DataStore.getStartDate st in
  let v := UseTracker.viewStartDate (UseTracker.mount st now) in
  format startDate = js "2024-01-08" /\ format v = js "2024-01-04"
  /\ v < startDate
  /\ UseTracker.canGoBack startDate v = false
  /\ UseTracker.goBack startDate v = v
  /\ forall k : nat, Nat.iter k (UseTracker.goBack startDate) v <> startDate.
Proof.
  intros now newDate rows st startDate v.
  assert (Hs : startDate = 19730 * MS_PER_DAY) by reflexivity.
  assert (Hv : v = 19726 * MS_PER_DAY) by reflexivity.
  rewrite Hs, Hv.
  repeat split; try reflexivity.
  assert (Hfix : UseTracker.goBack (19730 * MS_PER_DAY) (19726 * MS_PER_DAY)
                 = 19726 * MS_PER_DAY) by reflexivity.
  intros k. induction k as [|k IH].
  - simpl. unfold MS_PER_DAY. lia.
  - rewrite Nat.iter_succ_r, Hfix. exact IH.
Qed.

Lemma canGoForward_iff (today v : Date) :
  UseTracker.canGoForward today v = true
  <-> addDays v (UseTracker.VISIBLE_DAYS - 1) < today.
Proof. dates. apply Z.ltb_lt. Qed.

Lemma goForward_min (today v : Date) :
  addDays v (UseTracker.VISIBLE_DAYS - 1) <= today ->
  UseTracker.goForward today v
  = Z.min (addDays v UseTracker.VISIBLE_DAYS)
          (subDays today (UseTracker.VISIBLE_DAYS - 1)).
Proof.
  intros H. dates.
  destruct (v + (7 - 1) * 86400000 <? today) eqn:Hlt.
  - destruct (v + 7 * 86400000 >? today + - (7 - 1) * 86400000) eqn:Hgt;
      [apply Z.gtb_gt in Hgt | rewrite Z.gtb_ltb in Hgt; apply Z.ltb_ge in Hgt];
      lia.
  - apply Z.ltb_ge in Hlt. lia.
Qed.

Lemma goBack_le (startDate v : Date) : UseTracker.goBack startDate v <= v.
Proof.
  destruct (Z_le_gt_dec startDate v) as [Hle|Hgt].
  - rewrite goBack_max by exact Hle. dates. lia.
  - rewrite goBack_before_startDate by lia. lia.
Qed.

(** The window never ends after today. *)
Lemma reachable_last_day (today v : Date) :
  UseTracker.reachable today v ->
  addDays v (UseTracker.VISIBLE_DAYS - 1) <= today.
Proof.
  induction 1 as [|startDate v _ IH|v _ IH].
  - dates. lia.
  - pose proof (goBack_le startDate v). dates. lia.
  - rewrite goForward_min by exact IH. dates. lia.
Qed.

Lemma goForward_iter (today : Date) (n : nat) :
  forall v, addDays v (UseTracker.VISIBLE_DAYS - 1) <= today ->
            today <= addDays v (UseTracker.VISIBLE_DAYS - 1
                                + Z.of_nat n * UseTracker.VISIBLE_DAYS) ->
            Nat.iter n (UseTracker.goForward today) v
            = subDays today (UseTracker.VISIBLE_DAYS - 1).
Proof.
  induction n as [|n IH]; intros v Hlo Hhi.
  - simpl. dates. lia.
  - rewrite Nat.iter_succ_r. apply IH.
    + rewrite goForward_min by exact Hlo. dates. lia.
    + rewrite goForward_min by exact Hlo. dates. lia.
Qed.

(** C5.  Forward navigation is clamped at today.  [can_go_forward] holds
    exactly when the last visible day, view_start_date + (N-1) days, is
    before today.  For every view_start_date the window takes, going
    forward leads to the earlier of "N days later" and the start whose
    last visible day is today, so the last visible day never exceeds
    today; repeated, it ends with the last visible day equal to today,
    where [can_go_forward] is false, and stays there. *)
Theorem goForward_clamped (today : Date) :
  (forall v, UseTracker.canGoForward today v = true
             <-> addDays v (UseTracker.VISIBLE_DAYS - 1) < today)
  /\ forall v, UseTracker.reachable today v ->
       UseTracker.goForward today v
       = Z.min (addDays v UseTracker.VISIBLE_DAYS)
               (subDays today (UseTracker.VISIBLE_DAYS - 1))
       /\ addDays (UseTracker.goForward today v) (UseTracker.VISIBLE_DAYS - 1)
          <= today
       /\ exists k : nat, forall j : nat, (k <= j)%nat ->
            let w := Nat.iter j (UseTracker.goForward today) v in
            addDays w (UseTracker.VISIBLE_DAYS - 1) = today
            /\ UseTracker.canGoForward today w = false.
Proof.
  split; [intros v; apply canGoForward_iff|].
  intros v Hreach.
  pose proof (reachable_last_day today v Hreach) as Hlast.
  split; [apply goForward_min; exact Hlast|]. split.
  - apply (reachable_last_day today).
    apply UseTracker.reach_goForward. exact Hreach.
  - exists (Z.to_nat (today - v)). intros j Hj w.
    assert (Hw : w = subDays today (UseTracker.VISIBLE_DAYS - 1)).
    { apply goForward_iter; [exact Hlast|]. dates. lia. }
    rewrite Hw. split; [dates; lia|].
    dates. apply Z.ltb_ge. lia.
Qed.

Lemma goForward_clamped_witness :
  (* history start = day 0, today = day 40, after going back to day 0 *)
  let v := Nat.iter 5 (UseTracker.goBack 0) (subDays (40 * MS_PER_DAY) 6) in
  v = 0
  /\ UseTracker.goForward (40 * MS_PER_DAY) v = 7 * MS_PER_DAY
  /\ exists k : nat, forall j : nat, (k <= j)%nat ->
       let w := Nat.iter j (UseTracker.goForward (40 * MS_PER_DAY)) v in
       addDays w (UseTracker.VISIBLE_DAYS - 1) = 40 * MS_PER_DAY
       /\ UseTracker.canGoForward (40 * MS_PER_DAY) w = false.
Proof.
  intros v.
  assert (Hreach : UseTracker.reachable (40 * MS_PER_DAY) v).
  { unfold v. simpl. repeat apply UseTracker.reach_goBack.
    apply UseTracker.reach_initial. }
  destruct (proj2 (goForward_clamped (40 * MS_PER_DAY)) v Hreach)
    as (Hmin & _ & Hk).
  split; [reflexivity|]. split; [rewrite Hmin; reflexivity | exact Hk].
Defined.

(** ** The full history sequence *)

Lemma last_map_seq {A : Type} (f : nat -> A) (n : nat) (d : A) :
  last (map f (seq 0 (S n))) d = f n.
Proof.
  rewrite seq_S, map_app. simpl. apply last_last.
Qed.

Lemma not_in_existsb (x : jsstring) (l : list jsstring) :
  existsb (streq x) l = false -> ~ In x l.
Proof.
  intros H Hin.
  assert (existsb (streq x) l = true)
    by (apply existsb_exists; exists x; split; [exact Hin | apply streq_refl]).
  congruence.
Qed.

(** The sequence starts with today and goes back one day at a time, for
    [differenceInDays(today, startDate) + 1] days. *)
Lemma allDates_nth (startDate today : Date) (i : nat) :
  (i < List.length (UseTracker.allDates startDate today))%nat ->
  nth i (UseTracker.allDates startDate today) []
  = format (subDays today (Z.of_nat i)).
Proof.
  unfold UseTracker.allDates. rewrite length_map, length_seq. intros Hi.
  rewrite (nth_indep _ [] (format (subDays today (Z.of_nat 0%nat))))
    by (rewrite length_map, length_seq; exact Hi).
  rewrite (map_nth (fun i => format (subDays today (Z.of_nat i)))).
  rewrite seq_nth by exact Hi. reflexivity.
Qed.

Lemma allDates_length (startDate today : Date) :
  startDate <= today ->
  List.length (UseTracker.allDates startDate today)
  = S (Z.to_nat ((today - startDate) / MS_PER_DAY)).
Proof.
  intros H. unfold UseTracker.allDates, differenceInDays.
  rewrite length_map, length_seq.
  rewrite Z.quot_div_nonneg by (unfold MS_PER_DAY; lia).
  assert (0 <= (today - startDate) / MS_PER_DAY)
    by (apply Z.div_pos; unfold MS_PER_DAY; lia).
  lia.
Qed.

(** When the history starts at the beginning of a day, the sequence ends
    on that day. *)
Lemma allDates_last_start_of_day (startDate today : Date) :
  startDate <= today ->
  startOfDay today = today -> startOfDay startDate = startDate ->
  last (UseTracker.allDates startDate today) [] = format startDate.
Proof.
  intros Hle Ht Hs. unfold UseTracker.allDates, differenceInDays.
  rewrite Z.quot_div_nonneg by (unfold MS_PER_DAY; lia).
  assert (Hq : 0 <= (today - startDate) / MS_PER_DAY)
    by (apply Z.div_pos; unfold MS_PER_DAY; lia).
  replace (Z.to_nat ((today - startDate) / MS_PER_DAY + 1))
    with (S (Z.to_nat ((today - startDate) / MS_PER_DAY))) by lia.
  rewrite last_map_seq. f_equal. rewrite Z2Nat.id by exact Hq.
  unfold startOfDay in Ht, Hs.
  assert (Hmod : (today - startDate) mod MS_PER_DAY = 0).
  { rewrite Zminus_mod.
    replace (today mod MS_PER_DAY) with 0 by lia.
    replace (startDate mod MS_PER_DAY) with 0 by lia. reflexivity. }
  pose proof (Z.div_mod (today - startDate) MS_PER_DAY) as Hdm.
  unfold subDays, addDays. unfold MS_PER_DAY in *. lia.
Qed.

(** When the history starts later in its day, the sequence ends on the
    day after. *)
Lemma allDates_last_within_day (startDate today : Date) :
  startDate <= today ->
  startOfDay today = today -> startOfDay startDate <> startDate ->
  last (UseTracker.allDates startDate today) []
  = format (addDays (startOfDay startDate) 1).
Proof.
  intros Hle Ht Hs. unfold UseTracker.allDates, differenceInDays.
  rewrite Z.quot_div_nonneg by (unfold MS_PER_DAY; lia).
  assert (Hq : 0 <= (today - startDate) / MS_PER_DAY)
    by (apply Z.div_pos; unfold MS_PER_DAY; lia).
  replace (Z.to_nat ((today - startDate) / MS_PER_DAY + 1))
    with (S (Z.to_nat ((today - startDate) / MS_PER_DAY))) by lia.
  rewrite last_map_seq. f_equal. rewrite Z2Nat.id by exact Hq.
  unfold startOfDay in *. unfold subDays, addDays.
  pose proof (Z.div_mod today MS_PER_DAY) as Ht'.
  pose proof (Z.div_mod startDate MS_PER_DAY) as Hs'.
  pose proof (Z.mod_pos_bound startDate MS_PER_DAY) as Hb.
  set (a := today / MS_PER_DAY) in *. set (b := startDate / MS_PER_DAY) in *.
  set (r := startDate mod MS_PER_DAY) in *.
  assert (Hr : 0 < r < MS_PER_DAY) by (unfold MS_PER_DAY in *; lia).
  assert (Htoday : today = MS_PER_DAY * a) by (unfold MS_PER_DAY in *; lia).
  assert (Hdiv : (today - startDate) / MS_PER_DAY = a - b - 1).
  { symmetry. apply (Z.div_unique_pos _ _ _ (MS_PER_DAY - r)); [lia|].
    unfold MS_PER_DAY in *. lia. }
  rewrite Hdiv. unfold MS_PER_DAY in *. lia.
Qed.

(** C6 fails on the store as it is built without a remote store.  The
    store is created on 2024-01-31 at 15:00, so the history starts thirty
    days earlier at 15:00, on 2024-01-01; today is 2024-01-31.  The
    sequence holds the thirty days from 2024-01-31 back to 2024-01-02: the
    day of the history start date is not in it. *)
Theorem allDates_misses_start_day :
  let now := 19753 * MS_PER_DAY + 54000000 in        (* 2024-01-31 15:00 *)
  let st := DataStore.initialize false (fun _ => 0) (mkTables None None None)
              demoSampling (DataStore.create false now) in
  let startDate := DataStore.getStartDate st in
  let today := startOfDay now in
  let dates := UseTracker.allDates startDate today in
  startDate <= today
  /\ format today = js "2024-01-31" /\ format startDate = js "2024-01-01"
  /\ List.length dates = 30%nat
  /\ nth 0 dates [] = js "2024-01-31"
  /\ last dates [] = js "2024-01-02"
  /\ ~ In (format startDate) dates.
Proof.
  intros now st startDate today dates.
  repeat split; try (vm_compute; congruence).
  apply not_in_existsb. vm_compute. reflexivity.
Qed.

(** ** Cascade delete *)

Lemma filter_filter_implied {A : Type} (p q : A -> bool) (l : list A) :
  (forall x, p x = true -> q x = true) ->
  filter p (filter q l) = filter p l.
Proof.
  intros H. induction l as [|x l IH]; simpl; [reflexivity|].
  destruct (q x) eqn:Hq; simpl.
  - rewrite IH. reflexivity.
  - destruct (p x) eqn:Hp; [rewrite (H x Hp) in Hq; discriminate | exact IH].
Qed.

(** C7.  Cascade delete.  After [deleteActivity(activityId)] the store has
    no Log of that activity, and the Logs of every other activity are the
    same as before, in the same order. *)
Theorem deleteActivity_cascades
    (supabase : bool) (e : Effects) (activityId : jsstring) (st : DataStore.t) :
  let st' := DataStore.after (DataStore.deleteActivity supabase e activityId st) in
  DataStore.getLogsForActivity activityId st' = []
  /\ (forall other, other <> activityId ->
        DataStore.getLogsForActivity other st'
        = DataStore.getLogsForActivity other st)
  /\ (forall l, In l (DataStore.logs st')
                <-> In l (DataStore.logs st) /\ Log.activity_id l <> activityId).
Proof.
  intros st'. unfold st', DataStore.deleteActivity, DataStore.getLogsForActivity.
  simpl. repeat split.
  - induction (DataStore.logs st) as [|x l IH]; simpl; [reflexivity|].
    destruct (streq (Log.activity_id x) activityId) eqn:Hx; simpl;
      [exact IH | rewrite Hx; exact IH].
  - intros other Hother. apply filter_filter_implied. intros x Hx.
    apply streq_true_iff in Hx. apply negb_true_iff, streq_false_iff. congruence.
  - apply filter_In in H. tauto.
  - apply filter_In in H. destruct H as [_ H].
    apply negb_true_iff, streq_false_iff in H. exact H.
  - intros [Hin Hne]. apply filter_In. split; [exact Hin|].
    apply negb_true_iff, streq_false_iff. exact Hne.
Qed.

Lemma deleteActivity_cascades_witness :
  let st' := DataStore.after
               (DataStore.deleteActivity true (demoEffects 1) (js "b") demoStore) in
  DataStore.getLogsForActivity (js "b") st' = []
  /\ DataStore.getLogsForActivity (js "a") st'
     = [Log.make (js "l1") (js "a") (js "2024-01-01") 0].
Proof.
  intros st'.
  destruct (deleteActivity_cascades true (demoEffects 1) (js "b") demoStore)
    as (Hnone & Hother & _).
  split; [exact Hnone|].
  fold st' in Hother. rewrite (Hother (js "a")) by discriminate. reflexivity.
Defined.

(** ** Remote failures *)

(** C8.  A failing remote call changes nothing locally.  For each of the
    six mirrored mutations, the call made with the remote store in use and
    answered by an error leaves the same activities, logs, notes, start
    date and initialisation flag, and returns the same value, as the call
    made with the remote store out of use; the store keeps using the
    remote store afterwards. *)
Theorem remote_failure_keeps_local_result
    (supabase : bool) (newDate : jsstring -> Date)
    (uuid : jsstring) (instant : Date) (r : Reply) (st : DataStore.t) :
  let failing := mkEffects uuid instant Failed in
  let e := mkEffects uuid instant r in
  let on := DataStore.with_useSupabase true st in
  let off := DataStore.with_useSupabase false st in
  (forall name,
     let o := DataStore.addActivity true newDate failing name on in
     let o' := DataStore.addActivity supabase newDate e name off in
     localState (DataStore.after o) = localState (DataStore.after o')
     /\ DataStore.returned o = DataStore.returned o'
     /\ DataStore.useSupabase (DataStore.after o) = true)
  /\ (forall activityId date,
     let o := DataStore.toggleLog true newDate failing activityId date on in
     let o' := DataStore.toggleLog supabase newDate e activityId date off in
     localState (DataStore.after o) = localState (DataStore.after o')
     /\ DataStore.returned o = DataStore.returned o'
     /\ DataStore.useSupabase (DataStore.after o) = true)
  /\ (forall date text,
     let o := DataStore.saveNote true newDate failing date text on in
     let o' := DataStore.saveNote supabase newDate e date text off in
     localState (DataStore.after o) = localState (DataStore.after o')
     /\ DataStore.returned o = DataStore.returned o'
     /\ DataStore.useSupabase (DataStore.after o) = true)
  /\ (forall date,
     let o := DataStore.deleteNote true failing date on in
     let o' := DataStore.deleteNote supabase e date off in
     localState (DataStore.after o) = localState (DataStore.after o')
     /\ DataStore.returned o = DataStore.returned o'
     /\ DataStore.useSupabase (DataStore.after o) = true)
  /\ (forall activityId,
     let o := DataStore.deleteActivity true failing activityId on in
     let o' := DataStore.deleteActivity supabase e activityId off in
     localState (DataStore.after o) = localState (DataStore.after o')
     /\ DataStore.returned o = DataStore.returned o'
     /\ DataStore.useSupabase (DataStore.after o) = true)
  /\ (forall activityId newName,
     let o := DataStore.editActivity true failing activityId newName on in
     let o' := DataStore.editActivity supabase e activityId newName off in
     localState (DataStore.after o) = localState (DataStore.after o')
     /\ DataStore.returned o = DataStore.returned o'
     /\ DataStore.useSupabase (DataStore.after o) = true).
Proof.
  intros failing e on off. repeat apply conj.
  - intros name. unfold DataStore.addActivity. simpl. repeat split.
  - intros activityId date.
    unfold DataStore.toggleLog, DataStore.getLogForActivityAndDate. simpl.
    destruct (find _ (DataStore.logs st)); simpl; repeat split.
  - intros date text.
    unfold DataStore.saveNote, DataStore.getNoteForDate. simpl.
    destruct (find _ (DataStore.notes st)); simpl; repeat split.
  - intros date. unfold DataStore.deleteNote. simpl. repeat split.
  - intros activityId. unfold DataStore.deleteActivity. simpl. repeat split.
  - intros activityId newName. unfold DataStore.editActivity. simpl.
    destruct (find _ (DataStore.activities st)); simpl; repeat split.
Qed.

(** ** Initialisation *)

Lemma initialize_initialized supabase newDate r s st :
  DataStore.initialized (DataStore.initialize supabase newDate r s st) = true.
Proof.
  unfold DataStore.initialize.
  destruct (DataStore.initialized st) eqn:Hi; [exact Hi|].
  destruct (DataStore.remote supabase st); [|reflexivity].
  destruct (DataStore.loadFromSupabase supabase newDate r st) as [st' [|]];
    reflexivity.
Qed.

(** C9.  [initialize()] is idempotent.  A completed call leaves the store
    initialised, and every later call, whatever the remote store would
    answer and whatever sample data would be drawn, returns the store as it
    is: activities, logs, notes and history start date are unchanged. *)
Theorem initialize_idempotent
    (supabase : bool) (newDate : jsstring -> Date)
    (r1 r2 : Tables) (s1 s2 : Sampling) (st : DataStore.t) :
  let st1 := DataStore.initialize supabase newDate r1 s1 st in
  let st2 := DataStore.initialize supabase newDate r2 s2 st1 in
  DataStore.initialized st1 = true
  /\ st2 = st1
  /\ DataStore.activities st2 = DataStore.activities st1
  /\ DataStore.logs st2 = DataStore.logs st1
  /\ DataStore.notes st2 = DataStore.notes st1
  /\ DataStore.getStartDate st2 = DataStore.getStartDate st1.
Proof.
  intros st1 st2.
  assert (Hinit : DataStore.initialized st1 = true)
    by apply initialize_initialized.
  assert (Heq : st2 = st1).
  { unfold st2, DataStore.initialize at 1. rewrite Hinit. reflexivity. }
  rewrite Heq. repeat split. exact Hinit.
Qed.

(** ** Logs of unknown activities *)

(** C10.  [toggleLog] does not look at the activities.  For every
    activityId and date without a Log of the pair, the call creates and
    returns a Log with that activity_id and date, appended to the logs,
    and leaves the activities as they are; when no Activity has this id,
    the logs then hold a Log that references no Activity. *)
Theorem toggleLog_no_referential_check
    (supabase : bool) (newDate : jsstring -> Date) (e : Effects)
    (activityId date : jsstring) (st : DataStore.t) :
  DataStore.getLogForActivityAndDate activityId date st = None ->
  let o := DataStore.toggleLog supabase newDate e activityId date st in
  exists l,
    DataStore.returned o = Some l
    /\ Log.activity_id l = activityId /\ Log.logged_date l = date
    /\ DataStore.logs (DataStore.after o) = DataStore.logs st ++ [l]
    /\ DataStore.activities (DataStore.after o) = DataStore.activities st
    /\ ((forall a, In a (DataStore.activities st) -> Activity.id a <> activityId) ->
        In l (DataStore.logs (DataStore.after o))
        /\ forall a, In a (DataStore.activities (DataStore.after o)) ->
                     Activity.id a <> Log.activity_id l).
Proof.
  intros Hnone o.
  assert (H0 : logsOfPair activityId date st = [])
    by (apply find_none_filter; exact Hnone).
  destruct (toggleLog_absent supabase newDate activityId date e st H0)
    as (l & Hr & Ha & Hd & Hlogs & _).
  assert (Hact : DataStore.activities (DataStore.after o) = DataStore.activities st).
  { unfold o, DataStore.toggleLog. rewrite Hnone.
    destruct (DataStore.remote supabase st); [destruct (reply e) as [|[data|]]|];
      reflexivity. }
  exists l. repeat split; try assumption.
  - unfold o. rewrite Hlogs. apply in_or_app. right. left. reflexivity.
  - rewrite Hact, Ha. assumption.
Qed.

Lemma toggleLog_no_referential_check_witness :
  let o := DataStore.toggleLog true (fun _ => 0) (demoEffects 1)
             (js "no-such-activity") (js "2024-01-01") demoStore in
  exists l,
    DataStore.returned o = Some l
    /\ Log.activity_id l = js "no-such-activity"
    /\ In l (DataStore.logs (DataStore.after o))
    /\ forall a, In a (DataStore.activities (DataStore.after o)) ->
                 Activity.id a <> Log.activity_id l.
Proof.
  intros o.
  destruct (toggleLog_no_referential_check true (fun _ => 0) (demoEffects 1)
              (js "no-such-activity") (js "2024-01-01") demoStore eq_refl)
    as (l & Hr & Ha & _ & _ & _ & Hghost).
  exists l. split; [exact Hr|]. split; [exact Ha|].
  apply Hghost. intros a Hin.
  simpl in Hin. destruct Hin as [<-|[<-|[<-|[]]]]; discriminate.
Defined.

(** * Further properties of the store *)

(** ** What each mutation does to the collections *)

Lemma toggleLog_cases supabase newDate e activityId date st :
  let o := DataStore.toggleLog supabase newDate e activityId date st in
  (exists x,
     DataStore.getLogForActivityAndDate activityId date st = Some x
     /\ DataStore.returned o = None
     /\ DataStore.after o
        = DataStore.with_logs
            (filter (fun log => negb (streq (Log.id log) (Log.id x)))
                    (DataStore.logs st)) st)
  \/ (exists l,
     DataStore.getLogForActivityAndDate activityId date st = None
     /\ DataStore.returned o = Some l
     /\ pairOf l = (activityId, date)
     /\ (Log.id l = uuidv4 e
         \/ exists data, reply e = Answered (Some data) /\ Log.id l = row_id data)
     /\ DataStore.after o = DataStore.with_logs (DataStore.logs st ++ [l]) st).
Proof.
  unfold DataStore.toggleLog.
  destruct (DataStore.getLogForActivityAndDate activityId date st) as [x|].
  - left. exists x. repeat split.
  - right.
    destruct (DataStore.remote supabase st); [destruct (reply e) as [|[data|]]|];
      simpl; eexists; repeat split; eauto.
Qed.

Lemma addActivity_after supabase newDate e name st :
  let o := DataStore.addActivity supabase newDate e name st in
  DataStore.after o
  = DataStore.with_activities
      (DataStore.activities st ++ [DataStore.returned o]) st.
Proof.
  unfold DataStore.addActivity.
  destruct (DataStore.remote supabase st); [destruct (reply e) as [|[data|]]|];
    reflexivity.
Qed.

Lemma saveNote_cases supabase newDate e date text st :
  let o := DataStore.saveNote supabase newDate e date text st in
  (exists x,
     DataStore.getNoteForDate date st = Some x
     /\ DataStore.returned o
        = Note.make (Note.id x) (Note.logged_date x) text (Note.created_at x)
                    (now e)
     /\ DataStore.after o
        = DataStore.with_notes
            (mutateFirst (fun note => streq (Note.logged_date note) date)
                         (fun _ => DataStore.returned o) (DataStore.notes st)) st)
  \/ (DataStore.getNoteForDate date st = None
      /\ Note.logged_date (DataStore.returned o) = date
      /\ Note.text (DataStore.returned o) = text
      /\ DataStore.after o
         = DataStore.with_notes (DataStore.notes st ++ [DataStore.returned o]) st).
Proof.
  unfold DataStore.saveNote.
  destruct (DataStore.getNoteForDate date st) as [x|].
  - left. exists x. repeat split.
  - right.
    destruct (DataStore.remote supabase st); [destruct (reply e) as [|[data|]]|];
      simpl; repeat split.
Qed.

(** ** Lists without repeated keys *)

Lemma NoDup_map_filter {A B : Type} (key : A -> B) (p : A -> bool) (l : list A) :
  NoDup (map key l) -> NoDup (map key (filter p l)).
Proof.
  induction l as [|x l IH]; simpl; intros H; [constructor|].
  inversion H as [|? ? Hnot Hrest]; subst.
  destruct (p x); simpl; [|auto].
  constructor; [|auto].
  intros Hin. apply Hnot. apply in_map_iff in Hin.
  destruct Hin as (y & Hy & Hiny). apply in_map_iff. exists y.
  split; [exact Hy|]. apply filter_In in Hiny. tauto.
Qed.

Lemma NoDup_map_snoc {A B : Type} (key : A -> B) (l : list A) (x : A) :
  NoDup (map key l) -> ~ In (key x) (map key l) -> NoDup (map key (l ++ [x])).
Proof.
  intros Hl Hx. rewrite map_app. apply NoDup_app; [exact Hl | |].
  - simpl. constructor; [tauto | constructor].
  - intros a Ha [<-|[]]. exact (Hx Ha).
Qed.

Lemma map_mutateFirst {A B : Type} (key : A -> B) (p : A -> bool) (f : A -> A)
    (l : list A) :
  (forall x, In x l -> p x = true -> key (f x) = key x) ->
  map key (mutateFirst p f l) = map key l.
Proof.
  induction l as [|x l IH]; simpl; intros H; [reflexivity|].
  destruct (p x) eqn:Hp; simpl.
  - rewrite (H x (or_introl eq_refl) Hp). reflexivity.
  - rewrite IH; [reflexivity|]. intros y Hy. apply H. right. exact Hy.
Qed.

Lemma NoDup_map_count {A B : Type} (key : A -> B) (p : A -> bool) (k : B)
    (l : list A) :
  (forall x, p x = true -> key x = k) ->
  NoDup (map key l) -> (List.length (filter p l) <= 1)%nat.
Proof.
  intros Hp. induction l as [|x l IH]; simpl; intros H; [lia|].
  inversion H as [|? ? Hnot Hrest]; subst.
  destruct (p x) eqn:Hx; [|auto]. simpl.
  assert (Hnil : filter p l = []).
  { destruct (filter p l) as [|y m] eqn:Hf; [reflexivity|]. exfalso.
    assert (Hy : In y (filter p l)) by (rewrite Hf; left; reflexivity).
    apply filter_In in Hy. destruct Hy as [Hyl Hyp].
    apply Hnot. rewrite (Hp x Hx), <- (Hp y Hyp). apply in_map. exact Hyl. }
  rewrite Hnil. simpl. lia.
Qed.

Lemma samePair_true_iff activityId date log :
  samePair activityId date log = true <-> pairOf log = (activityId, date).
Proof.
  unfold samePair, pairOf. rewrite andb_true_iff, !streq_true_iff.
  split; [intros [-> ->]; reflexivity | intros H; injection H; auto].
Qed.

Lemma find_none_not_in_keys {A B : Type} (key : A -> B) (p : A -> bool) (k : B)
    (l : list A) :
  (forall x, key x = k -> p x = true) ->
  find p l = None -> ~ In k (map key l).
Proof.
  intros Hp Hnone Hin. apply in_map_iff in Hin. destruct Hin as (x & Hk & Hx).
  specialize (Hp x Hk). rewrite (find_none p l Hnone x Hx) in Hp. discriminate.
Qed.

(** ** Invariants of the collections along any sequence of mutations *)

Lemma perform_settings supabase newDate st c :
  DataStore.startDate (perform supabase newDate st c) = DataStore.startDate st
  /\ DataStore.initialized (perform supabase newDate st c)
     = DataStore.initialized st
  /\ DataStore.useSupabase (perform supabase newDate st c)
     = DataStore.useSupabase st.
Proof.
  destruct c as [e [name|a d|d text|d|a|a name]]; unfold perform; simpl.
  - rewrite addActivity_after. repeat split.
  - destruct (toggleLog_cases supabase newDate e a d st)
      as [(x & _ & _ & ->)|(l & _ & _ & _ & _ & ->)]; repeat split.
  - destruct (saveNote_cases supabase newDate e d text st)
      as [(x & _ & _ & ->)|(_ & _ & _ & ->)]; repeat split.
  - repeat split.
  - repeat split.
  - unfold DataStore.editActivity.
    destruct (find _ (DataStore.activities st)); repeat split.
Qed.

Lemma perform_onePerPair supabase newDate st c :
  onePerPair st -> onePerPair (perform supabase newDate st c).
Proof.
  unfold onePerPair. intros H.
  destruct c as [e [name|a d|d text|d|a|a name]]; unfold perform; simpl.
  - rewrite addActivity_after. exact H.
  - destruct (toggleLog_cases supabase newDate e a d st)
      as [(x & _ & _ & ->)|(l & Hnone & _ & Hl & _ & ->)]; simpl.
    + apply NoDup_map_filter. exact H.
    + apply NoDup_map_snoc; [exact H|]. rewrite Hl.
      apply (find_none_not_in_keys pairOf (samePair a d)); [|exact Hnone].
      intros y Hy. apply samePair_true_iff. exact Hy.
  - destruct (saveNote_cases supabase newDate e d text st)
      as [(x & _ & _ & ->)|(_ & _ & _ & ->)]; exact H.
  - exact H.
  - apply NoDup_map_filter. exact H.
  - unfold DataStore.editActivity.
    destruct (find _ (DataStore.activities st)); exact H.
Qed.

Lemma perform_onePerDate supabase newDate st c :
  onePerDate st -> onePerDate (perform supabase newDate st c).
Proof.
  unfold onePerDate. intros H.
  destruct c as [e [name|a d|d text|d|a|a name]]; unfold perform; simpl.
  - rewrite addActivity_after. exact H.
  - destruct (toggleLog_cases supabase newDate e a d st)
      as [(x & _ & _ & ->)|(l & _ & _ & _ & _ & ->)]; exact H.
  - destruct (saveNote_cases supabase newDate e d text st)
      as [(x & Hx & Hr & ->)|(Hnone & Hd & _ & ->)]; simpl.
    + rewrite map_mutateFirst; [exact H|]. intros y _ Hy.
      rewrite Hr. simpl. apply find_some in Hx. destruct Hx as [_ Hx].
      apply streq_true_iff in Hx, Hy. congruence.
    + apply NoDup_map_snoc; [exact H|]. rewrite Hd.
      apply (find_none_not_in_keys Note.logged_date
               (fun note => streq (Note.logged_date note) d)); [|exact Hnone].
      intros y Hy. apply streq_true_iff. exact Hy.
  - apply NoDup_map_filter. exact H.
  - exact H.
  - unfold DataStore.editActivity.
    destruct (find _ (DataStore.activities st)); exact H.
Qed.

Lemma perform_distinctOrder supabase newDate st c :
  distinctOrder st -> distinctOrder (perform supabase newDate st c).
Proof.
  unfold distinctOrder. intros H.
  destruct c as [e [name|a d|d text|d|a|a name]]; unfold perform; simpl.
  - rewrite addActivity_after. simpl.
    apply NoDup_map_snoc; [exact H|]. intros Hin.
    apply fold_max_ge in Hin. rewrite addActivity_order_index_eq in Hin. lia.
  - destruct (toggleLog_cases supabase newDate e a d st)
      as [(x & _ & _ & ->)|(l & _ & _ & _ & _ & ->)]; exact H.
  - destruct (saveNote_cases supabase newDate e d text st)
      as [(x & _ & _ & ->)|(_ & _ & _ & ->)]; exact H.
  - exact H.
  - apply NoDup_map_filter. exact H.
  - unfold DataStore.editActivity.
    destruct (find _ (DataStore.activities st)); [|exact H]. simpl.
    rewrite map_mutateFirst; [exact H | reflexivity].
Qed.

Lemma performAll_invariant supabase newDate (P : DataStore.t -> Prop) :
  (forall st c, P st -> P (perform supabase newDate st c)) ->
  forall cs st, P st -> P (performAll supabase newDate cs st).
Proof.
  intros Hstep cs. unfold performAll.
  induction cs as [|c cs IH]; simpl; intros st H; [exact H|].
  apply IH, Hstep, H.
Qed.

(** X1.  At most one Log per pair.  If no two Logs of the store have the
    same activity and date, this is still so after any sequence of
    mutations, whatever the identifiers drawn and the answers of the remote
    store: every (activityId, date) has at most one Log. *)
Theorem logs_stay_one_per_pair
    (supabase : bool) (newDate : jsstring -> Date)
    (cs : list (Effects * Mutation)) (st : DataStore.t) :
  onePerPair st ->
  let st' := performAll supabase newDate cs st in
  onePerPair st'
  /\ forall activityId date,
       (List.length (logsOfPair activityId date st') <= 1)%nat.
Proof.
  intros H st'.
  assert (H' : onePerPair st')
    by (apply performAll_invariant; [apply perform_onePerPair | exact H]).
  split; [exact H'|]. intros activityId date.
  apply (NoDup_map_count pairOf _ (activityId, date)); [|exact H'].
  intros x. apply samePair_true_iff.
Qed.

(** X2.  At most one Note per date.  If no two Notes of the store have the
    same date, this is still so after any sequence of mutations: saving a
    Note for a date that has one rewrites it in place. *)
Theorem notes_stay_one_per_date
    (supabase : bool) (newDate : jsstring -> Date)
    (cs : list (Effects * Mutation)) (st : DataStore.t) :
  onePerDate st ->
  let st' := performAll supabase newDate cs st in
  onePerDate st'
  /\ forall date,
       (List.length
          (filter (fun note => streq (Note.logged_date note) date)
                  (DataStore.notes st')) <= 1)%nat.
Proof.
  intros H st'.
  assert (H' : onePerDate st')
    by (apply performAll_invariant; [apply perform_onePerDate | exact H]).
  split; [exact H'|]. intros date.
  apply (NoDup_map_count Note.logged_date _ date); [|exact H'].
  intros x. apply streq_true_iff.
Qed.

(** X3.  Distinct order indices.  If no two Activities of the store have
    the same order_index, this is still so after any sequence of
    mutations: the display order never has a tie. *)
Theorem order_indices_stay_distinct
    (supabase : bool) (newDate : jsstring -> Date)
    (cs : list (Effects * Mutation)) (st : DataStore.t) :
  distinctOrder st -> distinctOrder (performAll supabase newDate cs st).
Proof.
  intros H. apply performAll_invariant; [apply perform_distinctOrder | exact H].
Qed.

(** X4.  No mutation touches the settings of the store.  After any sequence
    of mutations the history start date, the initialisation flag and the
    switch [useSupabase] are what they were: in particular a failing
    remote call never turns the remote store off. *)
Theorem mutations_keep_settings
    (supabase : bool) (newDate : jsstring -> Date)
    (cs : list (Effects * Mutation)) (st : DataStore.t) :
  let st' := performAll supabase newDate cs st in
  DataStore.getStartDate st' = DataStore.getStartDate st
  /\ DataStore.initialized st' = DataStore.initialized st
  /\ DataStore.useSupabase st' = DataStore.useSupabase st.
Proof.
  apply (performAll_invariant supabase newDate
           (fun st' => DataStore.getStartDate st' = DataStore.getStartDate st
                       /\ DataStore.initialized st' = DataStore.initialized st
                       /\ DataStore.useSupabase st' = DataStore.useSupabase st)).
  - intros st0 c (H1 & H2 & H3).
    destruct (perform_settings supabase newDate st0 c) as (E1 & E2 & E3).
    unfold DataStore.getStartDate in *. rewrite E1, E2, E3. auto.
  - auto.
Qed.

Ltac distinct_keys :=
  vm_compute; repeat constructor; simpl; intuition discriminate.

Lemma logs_stay_one_per_pair_witness :
  onePerPair (performAll true (fun _ => 0) demoRun demoStore).
Proof.
  assert (H : onePerPair demoStore) by (unfold onePerPair; distinct_keys).
  exact (proj1 (logs_stay_one_per_pair true (fun _ => 0) demoRun demoStore H)).
Defined.

Lemma notes_stay_one_per_date_witness :
  onePerDate (performAll true (fun _ => 0) demoRun demoStore).
Proof.
  assert (H : onePerDate demoStore) by (unfold onePerDate; distinct_keys).
  exact (proj1 (notes_stay_one_per_date true (fun _ => 0) demoRun demoStore H)).
Defined.

Lemma order_indices_stay_distinct_witness :
  distinctOrder (performAll true (fun _ => 0) demoRun demoStore).
Proof.
  assert (H : distinctOrder demoStore) by (unfold distinctOrder; distinct_keys).
  exact (order_indices_stay_distinct true (fun _ => 0) demoRun demoStore H).
Defined.

(** ** Toggling one pair and the Logs of the others *)

Lemma NoDup_map_inj {A B : Type} (key : A -> B) (l : list A) (x y : A) :
  NoDup (map key l) -> In x l -> In y l -> key x = key y -> x = y.
Proof.
  induction l as [|z l IH]; simpl; intros H Hx Hy E; [tauto|].
  inversion H as [|? ? Hnot Hrest]; subst.
  destruct Hx as [->|Hx], Hy as [->|Hy]; auto.
  - exfalso. apply Hnot. rewrite E. apply in_map. exact Hy.
  - exfalso. apply Hnot. rewrite <- E. apply in_map. exact Hx.
Qed.

Lemma filter_filter_implied_in {A : Type} (p q : A -> bool) (l : list A) :
  (forall x, In x l -> p x = true -> q x = true) ->
  filter p (filter q l) = filter p l.
Proof.
  induction l as [|x l IH]; simpl; intros H; [reflexivity|].
  assert (IH' : filter p (filter q l) = filter p l)
    by (apply IH; intros y Hy; apply H; right; exact Hy).
  destruct (q x) eqn:Hq; simpl.
  - rewrite IH'. reflexivity.
  - destruct (p x) eqn:Hp; [|exact IH'].
    rewrite (H x (or_introl eq_refl) Hp) in Hq. discriminate.
Qed.

(** X5.  Toggling a pair leaves the other pairs alone.  When the Logs of
    the store have distinct ids, [toggleLog(activityId, date)] changes the
    Logs of no other pair, and it changes neither the activities nor the
    notes.  (The Log toggled off is removed by its id, hence the
    condition on the ids.) *)
Theorem toggleLog_other_pairs
    (supabase : bool) (newDate : jsstring -> Date) (e : Effects)
    (activityId date : jsstring) (st : DataStore.t) :
  NoDup (map Log.id (DataStore.logs st)) ->
  let st' := DataStore.after
               (DataStore.toggleLog supabase newDate e activityId date st) in
  (forall a d, (a, d) <> (activityId, date) ->
               logsOfPair a d st' = logsOfPair a d st)
  /\ DataStore.activities st' = DataStore.activities st
  /\ DataStore.notes st' = DataStore.notes st.
Proof.
  intros Hids st'. unfold st'.
  destruct (toggleLog_cases supabase newDate e activityId date st)
    as [(x & Hx & _ & ->)|(l & _ & _ & Hl & _ & ->)]; simpl;
    (split; [|split; reflexivity]); intros a d Hne; unfold logsOfPair; simpl.
  - apply filter_filter_implied_in. intros y Hy Hpair.
    apply negb_true_iff, streq_false_iff. intros Hid.
    apply find_some in Hx. destruct Hx as [Hxin Hxpair].
    assert (y = x) by (apply (NoDup_map_inj Log.id (DataStore.logs st)); assumption).
    subst y. apply samePair_true_iff in Hpair.
    apply (samePair_true_iff activityId date x) in Hxpair. congruence.
  - rewrite filter_app. simpl.
    destruct (samePair a d l) eqn:Hpair; [|apply app_nil_r].
    apply samePair_true_iff in Hpair. congruence.
Qed.

Lemma toggleLog_other_pairs_witness :
  logsOfPair (js "b") (js "2024-01-02")
    (DataStore.after
       (DataStore.toggleLog true (fun _ => 0) (demoEffects 1) (js "b")
          (js "2024-01-01") demoStore))
  = [Log.make (js "l3") (js "b") (js "2024-01-02") 0].
Proof.
  assert (Hids : NoDup (map Log.id (DataStore.logs demoStore)))
    by distinct_keys.
  rewrite (proj1 (toggleLog_other_pairs true (fun _ => 0) (demoEffects 1)
                    (js "b") (js "2024-01-01") demoStore Hids))
    by discriminate.
  reflexivity.
Defined.

(** ** The display order of the activities *)

Section SortBy.

Context {A : Type} (key : A -> Z).

Lemma insertBy_perm (x : A) (l : list A) :
  Permutation (insertBy key x l) (x :: l).
Proof.
  induction l as [|y l IH]; simpl; [apply Permutation_refl|].
  destruct (key x <=? key y); [apply Permutation_refl|].
  apply perm_trans with (y :: x :: l); [apply perm_skip, IH | apply perm_swap].
Qed.

Lemma sortBy_perm (l : list A) : Permutation (sortBy key l) l.
Proof.
  induction l as [|x l IH]; simpl; [apply perm_nil|].
  apply perm_trans with (x :: sortBy key l);
    [apply insertBy_perm | apply perm_skip, IH].
Qed.

Lemma insertBy_HdRel (x y : A) (l : list A) :
  key y <= key x -> HdRel (leKey key) y l -> HdRel (leKey key) y (insertBy key x l).
Proof.
  intros Hyx Hl. destruct l as [|z l]; simpl; [constructor; exact Hyx|].
  destruct (key x <=? key z); constructor;
    [exact Hyx | inversion Hl; assumption].
Qed.

Lemma insertBy_sorted (x : A) (l : list A) :
  Sorted (leKey key) l -> Sorted (leKey key) (insertBy key x l).
Proof.
  induction l as [|y l IH]; simpl; intros H; [repeat constructor|].
  inversion H as [|? ? Hs Hh]; subst.
  destruct (key x <=? key y) eqn:Hxy.
  - constructor; [exact H|]. constructor. apply Z.leb_le. exact Hxy.
  - constructor; [apply IH; exact Hs|].
    apply insertBy_HdRel; [|exact Hh]. apply Z.leb_gt in Hxy. lia.
Qed.

Lemma sortBy_sorted (l : list A) : StronglySorted (leKey key) (sortBy key l).
Proof.
  apply Sorted_StronglySorted; [intros a b c; unfold leKey; lia|].
  induction l as [|x l IH]; simpl; [constructor | apply insertBy_sorted, IH].
Qed.

(** The elements of one key keep their order. *)
Lemma insertBy_stable (k : Z) (x : A) (l : list A) :
  filter (fun a => key a =? k) (insertBy key x l)
  = filter (fun a => key a =? k) (x :: l).
Proof.
  induction l as [|y l IH]; [reflexivity|].
  cbn [insertBy]. destruct (key x <=? key y) eqn:Hxy; [reflexivity|].
  apply Z.leb_gt in Hxy. cbn [filter] in *. rewrite IH.
  destruct (key x =? k) eqn:Hx, (key y =? k) eqn:Hy; try reflexivity.
  apply Z.eqb_eq in Hx, Hy. lia.
Qed.

Lemma sortBy_stable (k : Z) (l : list A) :
  filter (fun a => key a =? k) (sortBy key l) = filter (fun a => key a =? k) l.
Proof.
  induction l as [|x l IH]; [reflexivity|].
  cbn [sortBy fold_right]. fold (sortBy key l). rewrite insertBy_stable.
  cbn [filter]. rewrite IH. reflexivity.
Qed.

Lemma insertBy_snoc (x y : A) (l : list A) :
  key y <= key x -> insertBy key y (l ++ [x]) = insertBy key y l ++ [x].
Proof.
  intros Hyx. induction l as [|z l IH]; simpl.
  - assert (H : (key y <=? key x) = true) by (apply Z.leb_le; exact Hyx).
    rewrite H. reflexivity.
  - destruct (key y <=? key z); [reflexivity | rewrite IH; reflexivity].
Qed.

Lemma sortBy_snoc (x : A) (l : list A) :
  (forall y, In y l -> key y <= key x) ->
  sortBy key (l ++ [x]) = sortBy key l ++ [x].
Proof.
  induction l as [|y l IH]; intros H; [reflexivity|].
  cbn [app sortBy fold_right]. fold (sortBy key (l ++ [x])). fold (sortBy key l).
  rewrite IH by (intros z Hz; apply H; right; exact Hz).
  apply insertBy_snoc. apply H. left. reflexivity.
Qed.

End SortBy.

(** X6.  [getActivities()] returns the activities of the store, each once,
    in ascending order of order_index, those of equal order_index in the
    order of the store. *)
Theorem getActivities_sorted (st : DataStore.t) :
  Permutation (DataStore.getActivities st) (DataStore.activities st)
  /\ StronglySorted
       (fun a b => Activity.order_index a <= Activity.order_index b)
       (DataStore.getActivities st)
  /\ forall k,
       filter (fun a => Activity.order_index a =? k) (DataStore.getActivities st)
       = filter (fun a => Activity.order_index a =? k) (DataStore.activities st).
Proof.
  unfold DataStore.getActivities. split; [apply sortBy_perm|].
  split; [apply sortBy_sorted | intros k; apply sortBy_stable].
Qed.

(** X7.  A new Activity is displayed last: after [addActivity(name)],
    [getActivities()] is what it was before, followed by the new
    Activity. *)
Theorem addActivity_displayed_last
    (supabase : bool) (newDate : jsstring -> Date) (e : Effects)
    (name : jsstring) (st : DataStore.t) :
  let o := DataStore.addActivity supabase newDate e name st in
  DataStore.getActivities (DataStore.after o)
  = DataStore.getActivities st ++ [DataStore.returned o].
Proof.
  intros o. unfold o, DataStore.getActivities.
  rewrite addActivity_after. simpl. apply sortBy_snoc.
  intros y Hy. rewrite addActivity_order_index_eq.
  pose proof (fold_max_ge (map Activity.order_index (DataStore.activities st))
                (Activity.order_index y) (in_map _ _ _ Hy)). lia.
Qed.

Lemma fold_max_app (l : list Z) (x : Z) :
  fold_right Z.max (-1) (l ++ [x]) = Z.max (fold_right Z.max (-1) l) x.
Proof.
  induction l as [|y l IH]; simpl; [lia | rewrite IH; lia].
Qed.

Lemma addAll_activities supabase newDate names :
  forall st,
    let top := fold_right Z.max (-1)
                 (map Activity.order_index (DataStore.activities st)) in
    exists added,
      DataStore.activities (performAll supabase newDate (addAll names) st)
      = DataStore.activities st ++ added
      /\ map Activity.name added = map snd names
      /\ map Activity.order_index added
         = map (fun i => top + 1 + Z.of_nat i) (seq 0 (List.length names)).
Proof.
  induction names as [|[e name] names IH]; intros st top.
  - exists []. simpl. rewrite app_nil_r. auto.
  - cbn [addAll map performAll fold_left perform fst snd].
    set (o := DataStore.addActivity supabase newDate e name st).
    destruct (IH (DataStore.after o)) as (added & Hact & Hnames & Hidx).
    exists (DataStore.returned o :: added).
    unfold performAll, addAll in Hact. rewrite Hact.
    unfold o at 1. rewrite addActivity_after. simpl.
    rewrite <- app_assoc. split; [reflexivity|]. split.
    + rewrite Hnames. f_equal. unfold o, DataStore.addActivity.
      destruct (DataStore.remote supabase st);
        [destruct (reply e) as [|[data|]]|]; reflexivity.
    + rewrite Hidx. unfold o at 1. rewrite addActivity_order_index_eq.
      fold top. f_equal; [lia|].
      rewrite <- seq_shift, map_map. apply map_ext. intros i.
      unfold o. rewrite addActivity_after. simpl.
      rewrite map_app. cbn [map]. rewrite fold_max_app.
      rewrite addActivity_order_index_eq. fold top. lia.
Qed.

(** X8.  Activities added to an empty store are numbered from 0.  After
    [addActivity] is called for the names n_0, ..., n_(k-1) on a store
    without activities, the store holds k activities, in this order, with
    these names and the order indices 0, ..., k-1, and [getActivities()]
    returns them in this order. *)
Theorem addActivity_numbers_from_zero
    (supabase : bool) (newDate : jsstring -> Date)
    (names : list (Effects * jsstring)) (st : DataStore.t) :
  DataStore.activities st = [] ->
  let st' := performAll supabase newDate (addAll names) st in
  map Activity.name (DataStore.activities st') = map snd names
  /\ map Activity.order_index (DataStore.activities st')
     = map Z.of_nat (seq 0 (List.length names))
  /\ DataStore.getActivities st' = DataStore.activities st'.
Proof.
  intros Hempty st'.
  destruct (addAll_activities supabase newDate names st)
    as (added & Hact & Hnames & Hidx).
  fold st' in Hact. rewrite Hempty in Hact, Hidx. simpl in Hact, Hidx.
  rewrite Hact.
  assert (Hidx' : map Activity.order_index added
                  = map Z.of_nat (seq 0 (List.length names))).
  { rewrite Hidx. apply map_ext. intros i. lia. }
  split; [exact Hnames|]. split; [exact Hidx'|].
  unfold DataStore.getActivities. rewrite Hact.
  clear Hact Hnames Hidx. revert Hidx'. generalize (List.length names).
  intros n. revert added.
  induction n as [|n IH]; intros added Hidx.
  - destruct added; [reflexivity | discriminate].
  - rewrite seq_S, map_app in Hidx. simpl in Hidx.
    destruct (exists_last (l := added)) as (front & x & ->).
    { intros ->. simpl in Hidx. destruct (map Z.of_nat (seq 0 n)); discriminate. }
    rewrite map_app in Hidx. simpl in Hidx.
    apply app_inj_tail in Hidx. destruct Hidx as [Hfront Hx].
    rewrite sortBy_snoc.
    + rewrite (IH front Hfront). reflexivity.
    + intros y Hy. apply (in_map Activity.order_index) in Hy.
      rewrite Hfront in Hy. apply in_map_iff in Hy.
      destruct Hy as (i & <- & Hi). apply in_seq in Hi. lia.
Qed.

Lemma addActivity_numbers_from_zero_witness :
  map Activity.order_index
    (DataStore.activities
       (performAll true (fun _ => 0)
          (addAll [(demoEffects 1, js "Run"); (demoEffects 2, js "Read");
                   (demoEffects 3, js "Rest")])
          (DataStore.create true 0)))
  = [0; 1; 2].
Proof.
  apply (addActivity_numbers_from_zero true (fun _ => 0)
           [(demoEffects 1, js "Run"); (demoEffects 2, js "Read");
            (demoEffects 3, js "Rest")] (DataStore.create true 0) eq_refl).
Defined.

(** ** Lookups after an update *)

Lemma find_mutateFirst_same {A : Type} (p : A -> bool) (f : A -> A)
    (l : list A) (a : A) :
  find p l = Some a -> p (f a) = true ->
  find p (mutateFirst p f l) = Some (f a).
Proof.
  induction l as [|x l IH]; simpl; [discriminate|].
  destruct (p x) eqn:Hp; intros H Hf.
  - injection H as ->. simpl. rewrite Hf. reflexivity.
  - simpl. rewrite Hp. apply IH; assumption.
Qed.

Lemma find_mutateFirst_other {A : Type} (p q : A -> bool) (f : A -> A)
    (l : list A) :
  (forall x, p x = true -> q x = false /\ q (f x) = false) ->
  find q (mutateFirst p f l) = find q l.
Proof.
  intros H. induction l as [|x l IH]; simpl; [reflexivity|].
  destruct (p x) eqn:Hp; simpl.
  - destruct (H x Hp) as [-> ->]. reflexivity.
  - rewrite IH. reflexivity.
Qed.

Lemma mutateFirst_length {A : Type} (p : A -> bool) (f : A -> A) (l : list A) :
  List.length (mutateFirst p f l) = List.length l.
Proof.
  induction l as [|x l IH]; simpl; [reflexivity|].
  destruct (p x); simpl; [reflexivity | rewrite IH; reflexivity].
Qed.

Lemma find_snoc {A : Type} (p : A -> bool) (l : list A) (x : A) :
  find p (l ++ [x])
  = match find p l with
    | Some y => Some y
    | None => if p x then Some x else None
    end.
Proof.
  induction l as [|y l IH]; simpl; [reflexivity|].
  destruct (p y); [reflexivity | exact IH].
Qed.

Lemma find_filter_other {A : Type} (p q : A -> bool) (l : list A) :
  (forall x, q x = true -> p x = true) ->
  find q (filter p l) = find q l.
Proof.
  intros H. induction l as [|x l IH]; simpl; [reflexivity|].
  destruct (p x) eqn:Hp; simpl.
  - rewrite IH. reflexivity.
  - destruct (q x) eqn:Hq; [rewrite (H x Hq) in Hp; discriminate | exact IH].
Qed.

Lemma filter_idem {A : Type} (p : A -> bool) (l : list A) :
  filter p (filter p l) = filter p l.
Proof. apply filter_filter_implied. auto. Qed.

Lemma store_eta (st : DataStore.t) :
  DataStore.make (DataStore.activities st) (DataStore.logs st)
    (DataStore.notes st) (DataStore.startDate st) (DataStore.initialized st)
    (DataStore.useSupabase st) = st.
Proof. destruct st; reflexivity. Qed.

(** ** Renaming an Activity *)

(** X9.  [editActivity(activityId, newName)] changes nothing when no
    Activity has this id.  Otherwise the first Activity with this id gets
    the new name and keeps its id, creation time and order_index; looking
    up any other id gives what it gave before; the ids and order indices
    of the store, in order, the logs and the notes are unchanged. *)
Theorem editActivity_renames
    (supabase : bool) (e : Effects) (activityId newName : jsstring)
    (st : DataStore.t) :
  let byId id := fun a => streq (Activity.id a) id in
  let st' := DataStore.after
               (DataStore.editActivity supabase e activityId newName st) in
  (find (byId activityId) (DataStore.activities st) = None -> st' = st)
  /\ (forall a, find (byId activityId) (DataStore.activities st) = Some a ->
        find (byId activityId) (DataStore.activities st')
        = Some (Activity.make (Activity.id a) newName (Activity.created_at a)
                              (Activity.order_index a)))
  /\ (forall other, other <> activityId ->
        find (byId other) (DataStore.activities st')
        = find (byId other) (DataStore.activities st))
  /\ map Activity.id (DataStore.activities st')
     = map Activity.id (DataStore.activities st)
  /\ map Activity.order_index (DataStore.activities st')
     = map Activity.order_index (DataStore.activities st)
  /\ DataStore.logs st' = DataStore.logs st
  /\ DataStore.notes st' = DataStore.notes st.
Proof.
  intros byId st'. unfold st', DataStore.editActivity.
  fold (byId activityId).
  destruct (find (byId activityId) (DataStore.activities st)) as [a0|] eqn:Hfind;
    simpl.
  - split; [discriminate|]. split; [|split; [|split; [|split]]].
    + intros a Ha. injection Ha as <-.
      apply (find_mutateFirst_same (byId activityId)
               (fun a => Activity.make (Activity.id a) newName
                           (Activity.created_at a) (Activity.order_index a))
               _ a0 Hfind).
      apply find_some in Hfind. exact (proj2 Hfind).
    + intros other Hother. apply find_mutateFirst_other.
      intros x Hx. unfold byId in *. simpl.
      apply streq_true_iff in Hx. rewrite Hx.
      split; apply streq_false_iff; congruence.
    + apply map_mutateFirst. reflexivity.
    + apply map_mutateFirst. reflexivity.
    + split; reflexivity.
  - repeat split. discriminate.
Qed.

Lemma editActivity_renames_witness :
  find (fun a => streq (Activity.id a) (js "b"))
    (DataStore.activities
       (DataStore.after
          (DataStore.editActivity true (demoEffects 1) (js "b") (js "Bee")
             demoStore)))
  = Some (Activity.make (js "b") (js "Bee") 0 1)
  /\ DataStore.after
       (DataStore.editActivity true (demoEffects 1) (js "z") (js "Zed") demoStore)
     = demoStore.
Proof.
  split.
  - apply (proj1 (proj2 (editActivity_renames true (demoEffects 1) (js "b")
                           (js "Bee") demoStore))
             (Activity.make (js "b") (js "B") 0 1)).
    reflexivity.
  - apply (proj1 (editActivity_renames true (demoEffects 1) (js "z")
                    (js "Zed") demoStore)).
    reflexivity.
Defined.

(** ** Saving, reading and deleting Notes *)

(** X10.  A saved Note is the one read back.  After [saveNote(date, text)]
    the lookup of [date] gives the returned Note, whose date and text are
    the arguments; the lookup of any other date gives what it gave before.
    When the date had a Note, the number of Notes is unchanged and the Note
    keeps its id and creation time; when it had none, one Note is added at
    the end.  Activities and Logs are untouched. *)
Theorem saveNote_then_getNoteForDate
    (supabase : bool) (newDate : jsstring -> Date) (e : Effects)
    (date text : jsstring) (st : DataStore.t) :
  let o := DataStore.saveNote supabase newDate e date text st in
  let st' := DataStore.after o in
  DataStore.getNoteForDate date st' = Some (DataStore.returned o)
  /\ Note.logged_date (DataStore.returned o) = date
  /\ Note.text (DataStore.returned o) = text
  /\ (forall other, other <> date ->
        DataStore.getNoteForDate other st' = DataStore.getNoteForDate other st)
  /\ (forall x, DataStore.getNoteForDate date st = Some x ->
        Note.id (DataStore.returned o) = Note.id x
        /\ Note.created_at (DataStore.returned o) = Note.created_at x
        /\ List.length (DataStore.notes st') = List.length (DataStore.notes st))
  /\ (DataStore.getNoteForDate date st = None ->
        DataStore.notes st' = DataStore.notes st ++ [DataStore.returned o])
  /\ DataStore.activities st' = DataStore.activities st
  /\ DataStore.logs st' = DataStore.logs st.
Proof.
  intros o st'. subst st' o.
  destruct (saveNote_cases supabase newDate e date text st)
    as [(x & Hx & Hr & ->)|(Hnone & Hd & Ht & ->)];
    set (o := DataStore.saveNote supabase newDate e date text st) in *.
  - pose proof (find_some _ _ Hx) as [_ Hxd]. apply streq_true_iff in Hxd.
    assert (Hrd : Note.logged_date (DataStore.returned o) = date)
      by (rewrite Hr; exact Hxd).
    unfold DataStore.getNoteForDate in *. simpl.
    split; [|split; [exact Hrd|split; [rewrite Hr; reflexivity|split; [|split; [|split]]]]].
    + apply (find_mutateFirst_same
               (fun note => streq (Note.logged_date note) date)
               (fun _ => DataStore.returned o) _ x Hx).
      apply streq_true_iff. exact Hrd.
    + intros other Hother. apply find_mutateFirst_other. intros y Hy.
      apply streq_true_iff in Hy. rewrite Hrd, Hy.
      split; apply streq_false_iff; congruence.
    + intros x' Hx'. rewrite Hx in Hx'. injection Hx' as <-.
      rewrite Hr. simpl. repeat split. apply mutateFirst_length.
    + rewrite Hx. discriminate.
    + split; reflexivity.
  - unfold DataStore.getNoteForDate in *. simpl.
    split; [|split; [exact Hd|split; [exact Ht|split; [|split; [|split]]]]].
    + rewrite find_snoc, Hnone, Hd, streq_refl. reflexivity.
    + intros other Hother. rewrite find_snoc.
      destruct (find (fun note => streq (Note.logged_date note) other)
                     (DataStore.notes st)); [reflexivity|].
      rewrite Hd. destruct (streq date other) eqn:E; [|reflexivity].
      apply streq_true_iff in E. congruence.
    + rewrite Hnone. discriminate.
    + reflexivity.
    + split; reflexivity.
Qed.

Lemma saveNote_then_getNoteForDate_witness :
  let o := DataStore.saveNote true (fun _ => 0) (demoEffects 1)
             (js "2024-01-01") (js "rewritten") demoStore in
  Note.id (DataStore.returned o) = js "n1"
  /\ DataStore.getNoteForDate (js "2024-01-02") (DataStore.after o)
     = Some (Note.make (js "n2") (js "2024-01-02") (js "second") 0 0).
Proof.
  intros o.
  destruct (saveNote_then_getNoteForDate true (fun _ => 0) (demoEffects 1)
              (js "2024-01-01") (js "rewritten") demoStore)
    as (_ & _ & _ & Hother & Hkept & _).
  split.
  - apply (Hkept (Note.make (js "n1") (js "2024-01-01") (js "first") 0 0)).
    reflexivity.
  - unfold o. rewrite (Hother (js "2024-01-02")) by discriminate. reflexivity.
Defined.

(** X11.  [deleteNote(date)] removes the Notes of the date and no other:
    the lookup of the date then finds nothing and the lookup of any other
    date gives what it gave before.  Deleting twice is deleting once, and
    deleting the Note just saved for a date that had none gives back the
    notes as they were. *)
Theorem deleteNote_removes
    (supabase : bool) (newDate : jsstring -> Date) (e e' : Effects)
    (date : jsstring) (st : DataStore.t) :
  let st' := DataStore.after (DataStore.deleteNote supabase e date st) in
  DataStore.getNoteForDate date st' = None
  /\ (forall other, other <> date ->
        DataStore.getNoteForDate other st' = DataStore.getNoteForDate other st)
  /\ DataStore.after (DataStore.deleteNote supabase e' date st') = st'
  /\ (forall text,
        DataStore.getNoteForDate date st = None ->
        DataStore.after
          (DataStore.deleteNote supabase e' date
             (DataStore.after
                (DataStore.saveNote supabase newDate e date text st)))
        = st).
Proof.
  intros st'. unfold st', DataStore.deleteNote, DataStore.getNoteForDate. simpl.
  split; [|split; [|split]].
  - apply (find_filter_negb (fun note => streq (Note.logged_date note) date)).
  - intros other Hother. apply find_filter_other. intros x Hx.
    apply streq_true_iff in Hx. apply negb_true_iff, streq_false_iff. congruence.
  - unfold DataStore.with_notes. simpl. rewrite filter_idem. reflexivity.
  - intros text Hnone.
    destruct (saveNote_cases supabase newDate e date text st)
      as [(x & Hx & _)|(_ & Hd & _ & ->)].
    + unfold DataStore.getNoteForDate in Hx. congruence.
    + unfold DataStore.with_notes. simpl. rewrite filter_app. simpl.
      rewrite Hd, streq_refl. simpl. rewrite app_nil_r.
      rewrite (filter_negb_find_none
                 (fun note => streq (Note.logged_date note) date) _ Hnone).
      apply store_eta.
Qed.

Lemma deleteNote_removes_witness :
  DataStore.after
    (DataStore.deleteNote true (demoEffects 2) (js "2024-01-09")
       (DataStore.after
          (DataStore.saveNote true (fun _ => 0) (demoEffects 1)
             (js "2024-01-09") (js "draft") demoStore)))
  = demoStore.
Proof.
  apply (proj2 (proj2 (proj2
           (deleteNote_removes true (fun _ => 0) (demoEffects 1) (demoEffects 2)
              (js "2024-01-09") demoStore)))).
  reflexivity.
Defined.

(** ** Deleting an Activity *)

(** X12.  [deleteActivity(activityId)] removes the Activities with this id
    and no other, and leaves the notes.  It changes nothing when neither
    an Activity nor a Log carries the id; and deleting the Activity just
    added gives back the store as it was, when its id was new to the
    activities and the logs. *)
Theorem deleteActivity_removes
    (supabase : bool) (newDate : jsstring -> Date) (e e' : Effects)
    (activityId : jsstring) (st : DataStore.t) :
  let unknown id s :=
    (forall a, In a (DataStore.activities s) -> Activity.id a <> id)
    /\ (forall l, In l (DataStore.logs s) -> Log.activity_id l <> id) in
  let st' := DataStore.after (DataStore.deleteActivity supabase e activityId st) in
  (forall a, In a (DataStore.activities st')
             <-> In a (DataStore.activities st) /\ Activity.id a <> activityId)
  /\ DataStore.notes st' = DataStore.notes st
  /\ (unknown activityId st -> st' = st)
  /\ (forall name,
        let o := DataStore.addActivity supabase newDate e name st in
        unknown (Activity.id (DataStore.returned o)) st ->
        DataStore.after
          (DataStore.deleteActivity supabase e'
             (Activity.id (DataStore.returned o)) (DataStore.after o))
        = st).
Proof.
  intros unknown st'.
  assert (Hnoop : forall ee id s, unknown id s ->
            DataStore.after (DataStore.deleteActivity supabase ee id s) = s).
  { intros ee id s [Ha Hl]. unfold DataStore.deleteActivity. simpl.
    unfold DataStore.with_logs, DataStore.with_activities. simpl.
    rewrite !filter_all; [apply store_eta | |].
    - intros l Hin. apply negb_true_iff, streq_false_iff. auto.
    - intros a Hin. apply negb_true_iff, streq_false_iff. auto. }
  split; [|split; [reflexivity|split; [apply Hnoop|]]].
  - intros a. unfold st', DataStore.deleteActivity. simpl.
    rewrite filter_In, negb_true_iff, streq_false_iff. tauto.
  - intros name o [Ha Hl]. unfold o. rewrite addActivity_after.
    fold o. unfold DataStore.deleteActivity. simpl.
    unfold DataStore.with_logs, DataStore.with_activities. simpl.
    rewrite filter_app. simpl. rewrite streq_refl. simpl. rewrite app_nil_r.
    rewrite !filter_all; [apply store_eta | |].
    + intros l Hin. apply negb_true_iff, streq_false_iff. auto.
    + intros a Hin. apply negb_true_iff, streq_false_iff. auto.
Qed.

Lemma deleteActivity_removes_witness :
  DataStore.after
    (DataStore.deleteActivity true (demoEffects 2) (js "u1")
       (DataStore.after
          (DataStore.addActivity true (fun _ => 0) (demoEffects 1) (js "D")
             demoStore)))
  = demoStore.
Proof.
  apply (proj2 (proj2 (proj2
           (deleteActivity_removes true (fun _ => 0) (demoEffects 1)
              (demoEffects 2) (js "u1") demoStore))) (js "D")).
  split.
  - intros a Hin. simpl in Hin.
    destruct Hin as [<-|[<-|[<-|[]]]]; discriminate.
  - intros l Hin. simpl in Hin.
    destruct Hin as [<-|[<-|[<-|[]]]]; discriminate.
Defined.

(** ** Loading from the remote store *)

Lemma fold_left_min (l : list Z) (d : Z) :
  (forall x, In x (d :: l) -> fold_left Z.min l d <= x)
  /\ In (fold_left Z.min l d) (d :: l).
Proof.
  revert d. induction l as [|y l IH]; intros d; simpl.
  - split; [intros x [<-|[]]; lia | left; reflexivity].
  - destruct (IH (Z.min d y)) as [Hle Hin]. split.
    + intros x [<-|[<-|Hx]].
      * specialize (Hle (Z.min d y) (or_introl eq_refl)). lia.
      * specialize (Hle (Z.min d y) (or_introl eq_refl)). lia.
      * apply Hle. right. exact Hx.
    + destruct Hin as [Hin|Hin]; [|right; right; exact Hin].
      rewrite <- Hin. destruct (Z.min_spec d y) as [[_ ->]|[_ ->]]; auto.
Qed.

(** X13.  A load in which the three tables are answered succeeds; the
    ids of the activities, the pairs of the logs and the dates of the
    notes are then those of the rows received, in their order.
    The history start date becomes the earliest date among the Logs: it is
    the date of one of them and is not after the date of any; with no Log
    it stays what it was. *)
Theorem loadFromSupabase_start_date
    (newDate : jsstring -> Date)
    (activityRows : list DbActivity) (logRows : list DbLog)
    (noteRows : list DbNote) (st : DataStore.t) :
  let r := mkTables (Some activityRows) (Some logRows) (Some noteRows) in
  let st' := fst (DataStore.loadFromSupabase true newDate r st) in
  snd (DataStore.loadFromSupabase true newDate r st) = true
  /\ map Activity.id (DataStore.activities st') = map da_id activityRows
  /\ map pairOf (DataStore.logs st')
     = map (fun l => (dl_activity_id l, dl_logged_date l)) logRows
  /\ map Note.logged_date (DataStore.notes st') = map dn_logged_date noteRows
  /\ (logRows = [] -> DataStore.getStartDate st' = DataStore.getStartDate st)
  /\ (logRows <> [] ->
      (forall l, In l (DataStore.logs st') ->
                 DataStore.getStartDate st' <= newDate (Log.logged_date l))
      /\ exists l, In l (DataStore.logs st')
                   /\ DataStore.getStartDate st' = newDate (Log.logged_date l)).
Proof.
  intros r st'. unfold st', r, DataStore.loadFromSupabase. simpl.
  set (logs' := map (fun l => Log.make (dl_id l) (dl_activity_id l)
                                (dl_logged_date l) (newDate (dl_created_at l)))
                    logRows).
  assert (Hlogs : logRows = [] <-> logs' = [])
    by (unfold logs'; destruct logRows; simpl; split; congruence).
  destruct (map (fun l => newDate (Log.logged_date l)) logs')
    as [|d dates] eqn:Hdates; simpl.
  - assert (Hnil : logs' = []) by (destruct logs'; [reflexivity | discriminate]).
    split; [reflexivity|]. split; [rewrite map_map; reflexivity|].
    split; [unfold logs'; rewrite map_map; reflexivity|].
    split; [rewrite map_map; reflexivity|].
    split; [reflexivity|]. intros Hne. exfalso. apply Hne, Hlogs, Hnil.
  - split; [reflexivity|]. split; [rewrite map_map; reflexivity|].
    split; [unfold logs'; rewrite map_map; reflexivity|].
    split; [rewrite map_map; reflexivity|].
    split.
    + intros Hnil. apply Hlogs in Hnil. rewrite Hnil in Hdates. discriminate.
    + intros _. destruct (fold_left_min dates d) as [Hle Hin]. split.
      * intros l Hl. apply Hle.
        pose proof (in_map (fun l => newDate (Log.logged_date l)) _ _ Hl) as Hm.
        simpl in Hm. fold logs' in Hm. rewrite Hdates in Hm. exact Hm.
      * unfold Date in *. rewrite <- Hdates in Hin. apply in_map_iff in Hin.
        destruct Hin as (l & Hl & Hlin). exists l. split; [exact Hlin|].
        symmetry. exact Hl.
Qed.

Lemma loadFromSupabase_start_date_witness :
  let parse := fun s : jsstring => Z.of_nat (List.length s) in
  let st' := fst (DataStore.loadFromSupabase true parse
                    (mkTables (Some [])
                       (Some [mkDbLog (js "l1") (js "a") (js "long-date") (js "t");
                              mkDbLog (js "l2") (js "a") (js "date") (js "t")])
                       (Some []))
                    (DataStore.create true 0)) in
  exists l, In l (DataStore.logs st')
            /\ DataStore.getStartDate st' = parse (Log.logged_date l).
Proof.
  intros parse st'.
  apply (proj2 (proj2 (proj2 (proj2 (proj2
           (loadFromSupabase_start_date parse []
              [mkDbLog (js "l1") (js "a") (js "long-date") (js "t");
               mkDbLog (js "l2") (js "a") (js "date") (js "t")]
              [] (DataStore.create true 0))))))).
  discriminate.
Defined.

(** ** The sample data *)

Lemma flat_map_length_le {A B : Type} (f : A -> list B) (k : nat) (l : list A) :
  (forall x, (List.length (f x) <= k)%nat) ->
  (List.length (flat_map f l) <= k * List.length l)%nat.
Proof.
  intros H. induction l as [|x l IH]; simpl; [lia|].
  rewrite length_app. specialize (H x). lia.
Qed.

Lemma indexed_length {A : Type} (l : list A) :
  List.length (indexed l) = List.length l.
Proof. unfold indexed. rewrite length_combine, length_seq. lia. Qed.

Lemma indexed_in {A : Type} (l : list A) (i : nat) (x : A) :
  In (i, x) (indexed l) -> In x l.
Proof. unfold indexed. apply in_combine_r. Qed.

Lemma subDays_0 (d : Date) : subDays d 0 = d.
Proof. unfold subDays, addDays. lia. Qed.

Lemma initializeSampleData_spec (s : Sampling) (st : DataStore.t) :
  let st' := DataStore.initializeSampleData s st in
  (exists samples,
     DataStore.activities st' = DataStore.activities st ++ samples
     /\ map Activity.name samples = DataStore.sampleActivities
     /\ map Activity.order_index samples = map Z.of_nat (seq 0 7)
     /\ map Activity.id samples = map (s_activity_uuid s) (seq 0 7))
  /\ (exists added,
        DataStore.logs st' = DataStore.logs st ++ added
        /\ (List.length added <= 30 * List.length (DataStore.activities st'))%nat
        /\ forall l, In l added ->
             exists a i,
               In a (DataStore.activities st') /\ Log.activity_id l = Activity.id a
               /\ (i < 30)%nat
               /\ Log.logged_date l = format (subDays (s_now s) (Z.of_nat i)))
  /\ (exists n0 n2 n5,
        DataStore.notes st' = DataStore.notes st ++ [n0; n2; n5]
        /\ map Note.logged_date [n0; n2; n5]
           = [format (s_now s); format (subDays (s_now s) 2);
              format (subDays (s_now s) 5)]
        /\ map Note.text [n0; n2; n5] = map snd DataStore.sampleNotes)
  /\ DataStore.startDate st' = DataStore.startDate st
  /\ DataStore.initialized st' = DataStore.initialized st
  /\ DataStore.useSupabase st' = DataStore.useSupabase st.
Proof.
  intros st'. unfold st', DataStore.initializeSampleData.
  cbn [DataStore.activities DataStore.logs DataStore.notes DataStore.startDate
       DataStore.initialized DataStore.useSupabase DataStore.with_activities
       DataStore.with_logs DataStore.with_notes].
  split; [|split; [|split; [|repeat split]]].
  - eexists. split; [reflexivity|]. repeat split.
  - eexists. split; [reflexivity|]. split.
    + eapply Nat.le_trans.
      * apply (flat_map_length_le _ 30). intros [pos activity].
        eapply Nat.le_trans;
          [apply (flat_map_length_le _ 1); intros i;
           destruct (s_random_gt s pos i); simpl; lia|].
        rewrite length_seq. lia.
      * rewrite indexed_length. lia.
    + intros l Hl. apply in_flat_map in Hl.
      destruct Hl as ([pos activity] & Hpos & Hl).
      apply in_flat_map in Hl. destruct Hl as (i & Hi & Hl).
      apply in_seq in Hi. apply indexed_in in Hpos.
      exists activity, i.
      destruct (s_random_gt s pos i); [|destruct Hl].
      destruct Hl as [<-|[]]. simpl. repeat split; [exact Hpos | lia].
  - do 3 eexists. split; [reflexivity|]. split; [|reflexivity].
    simpl. rewrite subDays_0. reflexivity.
Qed.

(** X14.  Initialising without a remote store.  On a store that is not
    initialised and does not use the remote store, [initialize()] appends
    the seven sample activities, with the order indices 0 to 6, and three
    notes dated today, two and five days ago; every Log it adds belongs to
    an Activity of the store and to one of the thirty days ending today,
    and they are at most thirty times as many as the Activities.  The
    history start date is not changed. *)
Theorem initialize_sample_data
    (supabase : bool) (newDate : jsstring -> Date)
    (r : Tables) (s : Sampling) (st : DataStore.t) :
  DataStore.initialized st = false ->
  DataStore.remote supabase st = false ->
  let st' := DataStore.initialize supabase newDate r s st in
  (exists samples,
     DataStore.activities st' = DataStore.activities st ++ samples
     /\ map Activity.name samples = DataStore.sampleActivities
     /\ map Activity.order_index samples = map Z.of_nat (seq 0 7))
  /\ (exists added,
        DataStore.logs st' = DataStore.logs st ++ added
        /\ (List.length added <= 30 * List.length (DataStore.activities st'))%nat
        /\ forall l, In l added ->
             exists a i,
               In a (DataStore.activities st') /\ Log.activity_id l = Activity.id a
               /\ (i < 30)%nat
               /\ Log.logged_date l = format (subDays (s_now s) (Z.of_nat i)))
  /\ map Note.logged_date (DataStore.notes st')
     = map Note.logged_date (DataStore.notes st)
       ++ [format (s_now s); format (subDays (s_now s) 2);
           format (subDays (s_now s) 5)]
  /\ DataStore.getStartDate st' = DataStore.getStartDate st
  /\ DataStore.initialized st' = true.
Proof.
  intros Hinit Hremote st'. unfold st', DataStore.initialize.
  rewrite Hinit, Hremote.
  destruct (initializeSampleData_spec s st)
    as ((samples & Ha & Hn & Ho & _) & Hlogs & (n0 & n2 & n5 & Hnotes & Hd & _)
        & Hstart & _ & _).
  simpl in *. split; [exists samples; auto|]. split; [exact Hlogs|].
  split; [rewrite Hnotes, map_app; simpl in Hd |- *; rewrite Hd; reflexivity|].
  split; [exact Hstart | reflexivity].
Qed.

Lemma initialize_sample_data_witness :
  let st' := DataStore.initialize false (fun _ => 0) (mkTables None None None)
               demoSampling (DataStore.create false 1704888000000) in
  map Note.logged_date (DataStore.notes st')
  = [js "2024-01-10"; js "2024-01-08"; js "2024-01-05"]
  /\ DataStore.initialized st' = true.
Proof.
  intros st'.
  destruct (initialize_sample_data false (fun _ => 0) (mkTables None None None)
              demoSampling (DataStore.create false 1704888000000)
              eq_refl eq_refl)
    as (_ & _ & Hnotes & _ & Hinit).
  split; [unfold st'; rewrite Hnotes; reflexivity | exact Hinit].
Defined.

(** X15.  A load that fails half way leaves its first half.  When the
    activities are answered and the logs are not, [initialize()] gives up
    the remote store for the session and falls back to the sample data,
    but the activities received stay: the store then holds them, followed
    by the seven sample activities. *)
Theorem initialize_partial_load
    (newDate : jsstring -> Date) (activityRows : list DbActivity)
    (noteRows : option (list DbNote)) (s : Sampling) (st : DataStore.t) :
  DataStore.initialized st = false ->
  DataStore.useSupabase st = true ->
  let r := mkTables (Some activityRows) None noteRows in
  let st' := DataStore.initialize true newDate r s st in
  DataStore.useSupabase st' = false
  /\ DataStore.initialized st' = true
  /\ DataStore.getStartDate st' = DataStore.getStartDate st
  /\ exists samples,
       DataStore.activities st'
       = map (fun a => Activity.make (da_id a) (da_name a)
                         (newDate (da_created_at a)) (da_order_index a))
             activityRows ++ samples
       /\ map Activity.name samples = DataStore.sampleActivities
       /\ map Activity.order_index samples = map Z.of_nat (seq 0 7).
Proof.
  intros Hinit Huse r st'.
  set (st1 := DataStore.with_useSupabase false
                (DataStore.with_activities
                   (map (fun a => Activity.make (da_id a) (da_name a)
                                    (newDate (da_created_at a))
                                    (da_order_index a)) activityRows) st)).
  assert (Heq : st' = DataStore.with_initialized true
                        (DataStore.initializeSampleData s st1)).
  { unfold st', DataStore.initialize, DataStore.remote.
    rewrite Hinit, Huse. reflexivity. }
  destruct (initializeSampleData_spec s st1)
    as ((samples & Ha & Hn & Ho & _) & _ & _ & Hstart & _ & Huse').
  rewrite Heq. unfold DataStore.getStartDate.
  cbn [DataStore.activities DataStore.startDate DataStore.initialized
       DataStore.useSupabase DataStore.with_initialized].
  rewrite Huse', Hstart, Ha. repeat split.
  exists samples. auto.
Qed.

Lemma initialize_partial_load_witness :
  let st' := DataStore.initialize true (fun _ => 0)
               (mkTables (Some [mkDbActivity (js "r1") (js "Remote") (js "t") 0])
                         None (Some []))
               demoSampling (DataStore.create true 1704888000000) in
  DataStore.useSupabase st' = false
  /\ List.length (DataStore.activities st') = 8%nat.
Proof.
  intros st'.
  destruct (initialize_partial_load (fun _ => 0)
              [mkDbActivity (js "r1") (js "Remote") (js "t") 0] (Some [])
              demoSampling (DataStore.create true 1704888000000)
              eq_refl eq_refl)
    as (Huse & _ & _ & samples & Hact & Hnames & _).
  split; [exact Huse|].
  fold st' in Hact. rewrite Hact, length_app.
  rewrite <- (length_map Activity.name samples), Hnames. reflexivity.
Defined.

(** ** What is reported to the console *)

Ltac report_cases :=
  simpl; split;
  [ intros H; first [exfalso; apply H; reflexivity | repeat split; congruence]
  | intros H; decompose [and] H; congruence ].

(** X16.  A mutation reports an error exactly when it asked the remote
    store and the answer was an error.  The remote store is asked whenever
    it is in use, except by [deleteNote] for a date without a Note and by
    [editActivity] for an unknown id, which do not ask. *)
Theorem errors_reported_iff
    (supabase : bool) (newDate : jsstring -> Date) (e : Effects)
    (st : DataStore.t) :
  let failed := DataStore.remote supabase st = true /\ reply e = Failed in
  (forall name,
     DataStore.reported (DataStore.addActivity supabase newDate e name st) <> []
     <-> failed)
  /\ (forall activityId date,
     DataStore.reported
       (DataStore.toggleLog supabase newDate e activityId date st) <> []
     <-> failed)
  /\ (forall date text,
     DataStore.reported (DataStore.saveNote supabase newDate e date text st) <> []
     <-> failed)
  /\ (forall date,
     DataStore.reported (DataStore.deleteNote supabase e date st) <> []
     <-> failed /\ DataStore.getNoteForDate date st <> None)
  /\ (forall activityId,
     DataStore.reported (DataStore.deleteActivity supabase e activityId st) <> []
     <-> failed)
  /\ (forall activityId newName,
     DataStore.reported
       (DataStore.editActivity supabase e activityId newName st) <> []
     <-> failed
         /\ find (fun a => streq (Activity.id a) activityId)
                 (DataStore.activities st) <> None).
Proof.
  intros failed. unfold failed.
  split; [|split; [|split; [|split; [|split]]]].
  - intros name. unfold DataStore.addActivity.
    destruct (DataStore.remote supabase st); [destruct (reply e) as [|[data|]]|];
      report_cases.
  - intros activityId date. unfold DataStore.toggleLog.
    destruct (DataStore.getLogForActivityAndDate activityId date st);
      (destruct (DataStore.remote supabase st);
       [destruct (reply e) as [|[data|]]|]); report_cases.
  - intros date text. unfold DataStore.saveNote.
    destruct (DataStore.getNoteForDate date st);
      (destruct (DataStore.remote supabase st);
       [destruct (reply e) as [|[data|]]|]); report_cases.
  - intros date. unfold DataStore.deleteNote.
    destruct (DataStore.getNoteForDate date st);
      (destruct (DataStore.remote supabase st);
       [destruct (reply e) as [|[data|]]|]); report_cases.
  - intros activityId. unfold DataStore.deleteActivity.
    destruct (DataStore.remote supabase st); [destruct (reply e) as [|[data|]]|];
      report_cases.
  - intros activityId newName. unfold DataStore.editActivity.
    destruct (find _ (DataStore.activities st));
      (destruct (DataStore.remote supabase st);
       [destruct (reply e) as [|[data|]]|]); report_cases.
Qed.

Lemma errors_reported_iff_witness :
  DataStore.reported
    (DataStore.deleteNote true (demoEffects 1) (js "2024-01-01") (DataStore.with_useSupabase true demoStore))
  <> []
  /\ DataStore.reported
       (DataStore.deleteNote true (demoEffects 1) (js "2024-01-09") (DataStore.with_useSupabase true demoStore))
     = [].
Proof.
  split.
  - apply (proj1 (proj2 (proj2 (proj2
             (errors_reported_iff true (fun _ => 0) (demoEffects 1) (DataStore.with_useSupabase true demoStore)))))
             (js "2024-01-01")).
    split; [split; reflexivity | vm_compute; discriminate].
  - reflexivity.
Defined.

(** * Further properties of the hook *)

(** ** The cached collections *)

Lemma toggleLog_frame supabase newDate e activityId date st :
  let st' := DataStore.after
               (DataStore.toggleLog supabase newDate e activityId date st) in
  DataStore.activities st' = DataStore.activities st
  /\ DataStore.notes st' = DataStore.notes st.
Proof.
  intros st'. unfold st'.
  destruct (toggleLog_cases supabase newDate e activityId date st)
    as [(x & _ & _ & ->)|(l & _ & _ & _ & _ & ->)]; split; reflexivity.
Qed.

Lemma saveNote_frame supabase newDate e date text st :
  let st' := DataStore.after (DataStore.saveNote supabase newDate e date text st) in
  DataStore.activities st' = DataStore.activities st
  /\ DataStore.logs st' = DataStore.logs st.
Proof.
  intros st'. unfold st'.
  destruct (saveNote_cases supabase newDate e date text st)
    as [(x & _ & _ & ->)|(_ & _ & _ & ->)]; split; reflexivity.
Qed.

Lemma editActivity_frame supabase e activityId newName st :
  let st' := DataStore.after
               (DataStore.editActivity supabase e activityId newName st) in
  DataStore.logs st' = DataStore.logs st
  /\ DataStore.notes st' = DataStore.notes st.
Proof.
  intros st'. unfold st', DataStore.editActivity.
  destruct (find _ (DataStore.activities st)); split; reflexivity.
Qed.

(** X17.  The hook shows what the store holds.  The effect run at mount
    fills the three caches from the store, and each handler of the hook
    ([toggleLog], [addActivity], [deleteActivity], [editActivity],
    [saveNote]) leaves them equal to what the store returns afterwards,
    although it reads again only the collections it expects to change. *)
Theorem hook_caches_synced
    (supabase : bool) (newDate : jsstring -> Date) (e : Effects)
    (h : UseTracker.t) :
  (forall r s, synced (UseTracker.init supabase newDate r s h))
  /\ (synced h ->
      (forall activityId date,
         synced (UseTracker.toggleLog supabase newDate e activityId date h))
      /\ (forall name, synced (UseTracker.addActivity supabase newDate e name h))
      /\ (forall activityId,
            synced (UseTracker.deleteActivity supabase e activityId h))
      /\ (forall activityId newName,
            synced (UseTracker.editActivity supabase e activityId newName h))
      /\ (forall date text,
            synced (UseTracker.saveNote supabase newDate e date text h))).
Proof.
  split; [intros r s; repeat split|].
  intros (Ha & Hl & Hn). unfold synced, DataStore.getActivities,
    DataStore.getLogs, DataStore.getNotes in *.
  split; [|split; [|split; [|split]]].
  - intros activityId date. unfold UseTracker.toggleLog. simpl.
    destruct (toggleLog_frame supabase newDate e activityId date
                (UseTracker.store h)) as [-> ->]. auto.
  - intros name. unfold UseTracker.addActivity.
    destruct (truthy (trim name)); [|auto]. simpl.
    rewrite addActivity_after. simpl. auto.
  - intros activityId. unfold UseTracker.deleteActivity. simpl. auto.
  - intros activityId newName. unfold UseTracker.editActivity.
    destruct (truthy (trim newName)); [|auto]. simpl.
    destruct (editActivity_frame supabase e activityId (trim newName)
                (UseTracker.store h)) as [-> ->]. auto.
  - intros date text. unfold UseTracker.saveNote.
    destruct (truthy (trim text)); simpl.
    + destruct (saveNote_frame supabase newDate e date (trim text)
                  (UseTracker.store h)) as [-> ->]. auto.
    + auto.
Qed.

Lemma hook_caches_synced_witness :
  synced (UseTracker.saveNote true (fun _ => 0) (demoEffects 1)
            (js "2024-01-03") (js " note ") demoTracker).
Proof.
  apply (proj2 (hook_caches_synced true (fun _ => 0) (demoEffects 1) demoTracker)).
  repeat split.
Defined.

(** X18.  With caches equal to the store's collections, the lookups of
    the hook answer as the store does: [isLogged(activityId, date)] holds
    exactly when [getLogForActivityAndDate] finds a Log, and
    [getNoteForDate] returns the Note the store returns. *)
Theorem hook_lookups_agree (activityId date : jsstring) (h : UseTracker.t) :
  synced h ->
  (UseTracker.isLogged activityId date h = true
   <-> exists log,
         DataStore.getLogForActivityAndDate activityId date (UseTracker.store h)
         = Some log)
  /\ UseTracker.getNoteForDate date h
     = DataStore.getNoteForDate date (UseTracker.store h).
Proof.
  intros (_ & Hl & Hn).
  unfold UseTracker.isLogged, UseTracker.getNoteForDate,
    DataStore.getLogForActivityAndDate, DataStore.getNoteForDate.
  rewrite Hl, Hn. unfold DataStore.getLogs, DataStore.getNotes.
  split; [|reflexivity]. rewrite existsb_exists. split.
  - intros (x & Hx & Hp).
    destruct (find _ (DataStore.logs (UseTracker.store h))) as [y|] eqn:Hf;
      [exists y; reflexivity|].
    rewrite (find_none _ _ Hf x Hx) in Hp. discriminate.
  - intros (log & Hf). apply find_some in Hf. exists log. exact Hf.
Qed.

Lemma hook_lookups_agree_witness :
  UseTracker.isLogged (js "b") (js "2024-01-02") demoTracker = true.
Proof.
  assert (Hs : synced demoTracker) by (repeat split).
  apply (proj1 (hook_lookups_agree (js "b") (js "2024-01-02") demoTracker Hs)).
  eexists. reflexivity.
Defined.

(** ** Names given through the hook *)

Lemma trimStart_suffix (s : jsstring) : exists p, s = p ++ trimStart s.
Proof.
  induction s as [|c s [p Hp]]; [exists []; reflexivity|]. simpl.
  destruct (isWhiteSpace c); [|exists []; reflexivity].
  exists (c :: p). simpl. rewrite <- Hp. reflexivity.
Qed.

Lemma trim_first (s m : jsstring) (c : N) :
  trim s = c :: m -> isWhiteSpace c = false.
Proof.
  unfold trim. intros H.
  apply (f_equal (@rev N)) in H. rewrite rev_involutive in H. simpl in H.
  destruct (trimStart_suffix (rev (trimStart s))) as [p Hp].
  rewrite H in Hp. apply (f_equal (@rev N)) in Hp.
  rewrite rev_involutive, !rev_app_distr, rev_involutive in Hp. simpl in Hp.
  apply (trimStart_head s _ c Hp).
Qed.

Lemma trim_last (s m : jsstring) (c : N) :
  trim s = m ++ [c] -> isWhiteSpace c = false.
Proof.
  unfold trim. intros H.
  apply (f_equal (@rev N)) in H. rewrite rev_involutive, rev_app_distr in H.
  simpl in H. apply (trimStart_head _ _ c H).
Qed.

(** X19.  Names reach the store trimmed.  [addActivity(name)] of the hook
    does nothing when the name is made of white space only; otherwise the
    store receives one new Activity whose name is the name without its
    leading and trailing white space: a name that is not empty and neither
    starts nor ends with a white space. *)
Theorem hook_addActivity_trims
    (supabase : bool) (newDate : jsstring -> Date) (e : Effects)
    (name : jsstring) (h : UseTracker.t) :
  let h' := UseTracker.addActivity supabase newDate e name h in
  (forallb isWhiteSpace name = true -> h' = h)
  /\ (forallb isWhiteSpace name = false ->
      exists a,
        DataStore.activities (UseTracker.store h')
        = DataStore.activities (UseTracker.store h) ++ [a]
        /\ Activity.name a = trim name
        /\ Activity.name a <> []
        /\ (forall c m, Activity.name a = c :: m -> isWhiteSpace c = false)
        /\ (forall c m, Activity.name a = m ++ [c] -> isWhiteSpace c = false)).
Proof.
  intros h'. unfold h', UseTracker.addActivity. split.
  - intros Hblank. apply trim_nil_iff in Hblank. rewrite Hblank. reflexivity.
  - intros Hname.
    assert (Hne : trim name <> []).
    { intros Hnil. apply trim_nil_iff in Hnil. congruence. }
    destruct (trim name) as [|c0 m0] eqn:Htrim; [congruence|].
    cbn [truthy UseTracker.store]. rewrite addActivity_after.
    eexists. split; [reflexivity|].
    assert (Hn : Activity.name
                   (DataStore.returned
                      (DataStore.addActivity supabase newDate e (c0 :: m0)
                         (UseTracker.store h))) = c0 :: m0).
    { unfold DataStore.addActivity.
      destruct (DataStore.remote supabase (UseTracker.store h));
        [destruct (reply e) as [|[data|]]|]; reflexivity. }
    rewrite Hn. split; [reflexivity|]. split; [discriminate|].
    rewrite <- Htrim. split; intros c m Hc.
    + exact (trim_first name m c Hc).
    + exact (trim_last name m c Hc).
Qed.

Lemma hook_addActivity_trims_witness :
  exists a,
    DataStore.activities
      (UseTracker.store
         (UseTracker.addActivity true (fun _ => 0) (demoEffects 1)
            (js "  Yoga ") demoTracker))
    = DataStore.activities demoStore ++ [a]
    /\ Activity.name a = js "Yoga".
Proof.
  destruct (proj2 (hook_addActivity_trims true (fun _ => 0) (demoEffects 1)
                     (js "  Yoga ") demoTracker) eq_refl)
    as (a & Hact & Hname & _).
  exists a. split; [exact Hact | exact Hname].
Defined.

(** ** The visible window *)

Lemma format_startOfDay (d : Date) : format (startOfDay d) = format d.
Proof.
  unfold format, startOfDay.
  replace ((d - d mod MS_PER_DAY) / MS_PER_DAY) with (d / MS_PER_DAY);
    [reflexivity|].
  pose proof (Z.div_mod d MS_PER_DAY) as H.
  replace (d - d mod MS_PER_DAY) with (d / MS_PER_DAY * MS_PER_DAY)
    by (unfold MS_PER_DAY in *; lia).
  symmetry. apply Z.div_mul. unfold MS_PER_DAY. lia.
Qed.

(** X20.  The visible window is the seven days from [viewStartDate] on,
    in order; the window the hook starts with ends on the day of the
    instant at which it was computed. *)
Theorem visibleDates_window (viewStartDate now : Date) :
  List.length (UseTracker.visibleDates viewStartDate) = 7%nat
  /\ (forall i, (i < 7)%nat ->
        nth i (UseTracker.visibleDates viewStartDate) []
        = format (addDays viewStartDate (Z.of_nat i)))
  /\ last (UseTracker.visibleDates (UseTracker.initialViewStartDate now)) []
     = format now.
Proof.
  split; [reflexivity|]. split.
  - intros i Hi. do 7 (destruct i as [|i]; [reflexivity|]). lia.
  - unfold UseTracker.visibleDates.
    change (Z.to_nat UseTracker.VISIBLE_DAYS) with 7%nat.
    rewrite last_map_seq. rewrite <- (format_startOfDay now). f_equal.
    unfold UseTracker.initialViewStartDate, subDays, addDays,
      UseTracker.VISIBLE_DAYS, startOfDay, MS_PER_DAY.
    change (Z.of_nat 6) with 6. lia.
Qed.

Lemma visibleDates_window_witness :
  nth 3 (UseTracker.visibleDates (19726 * MS_PER_DAY)) [] = js "2024-01-07".
Proof.
  rewrite (proj1 (proj2 (visibleDates_window (19726 * MS_PER_DAY) 0)) 3%nat)
    by lia.
  reflexivity.
Defined.

(** ** The full history sequence, in general *)

Lemma quot_day_nonpos (x : Z) :
  Z.quot x MS_PER_DAY + 1 <= 0 <-> x <= - MS_PER_DAY.
Proof.
  assert (HD : 0 < MS_PER_DAY) by (unfold MS_PER_DAY; lia).
  destruct (Z_lt_le_dec x 0) as [Hneg|Hpos].
  - replace x with (- (- x)) at 1 by lia. rewrite Z.quot_opp_l by lia.
    rewrite Z.quot_div_nonneg by lia.
    pose proof (Z.div_mod (- x) MS_PER_DAY) as Hdm.
    pose proof (Z.mod_pos_bound (- x) MS_PER_DAY HD) as Hb.
    split; intros H; unfold MS_PER_DAY in *; nia.
  - rewrite Z.quot_div_nonneg by lia.
    pose proof (Z.div_pos x MS_PER_DAY Hpos HD). lia.
Qed.

(** X21.  The full history sequence lists today first and then one day
    earlier at each step, for as many days as there are full days between
    the history start date and today, plus one.  It is empty exactly when
    the history start date lies a full day or more after today. *)
Theorem allDates_sequence (startDate today : Date) :
  (forall i, (i < List.length (UseTracker.allDates startDate today))%nat ->
     nth i (UseTracker.allDates startDate today) []
     = format (subDays today (Z.of_nat i)))
  /\ (startDate <= today ->
      List.length (UseTracker.allDates startDate today)
      = S (Z.to_nat ((today - startDate) / MS_PER_DAY)))
  /\ (UseTracker.allDates startDate today = []
      <-> addDays today 1 <= startDate).
Proof.
  split; [intros i; apply allDates_nth|]. split; [apply allDates_length|].
  unfold UseTracker.allDates, differenceInDays.
  pose proof (quot_day_nonpos (today - startDate)) as Hq.
  unfold addDays. split.
  - intros Hnil. apply (f_equal (@List.length jsstring)) in Hnil.
    rewrite length_map, length_seq in Hnil. simpl in Hnil.
    assert (Z.quot (today - startDate) MS_PER_DAY + 1 <= 0) by lia.
    apply Hq in H. lia.
  - intros Hlate.
    assert (H : Z.quot (today - startDate) MS_PER_DAY + 1 <= 0)
      by (apply Hq; lia).
    replace (Z.to_nat (Z.quot (today - startDate) MS_PER_DAY + 1)) with 0%nat
      by lia.
    reflexivity.
Qed.

Lemma allDates_sequence_witness :
  UseTracker.allDates (3 * MS_PER_DAY) (2 * MS_PER_DAY) = []
  /\ List.length (UseTracker.allDates (10 * MS_PER_DAY + 5) (12 * MS_PER_DAY))
     = 2%nat.
Proof.
  split.
  - apply (proj2 (proj2 (allDates_sequence (3 * MS_PER_DAY) (2 * MS_PER_DAY)))).
    unfold addDays, MS_PER_DAY. lia.
  - rewrite (proj1 (proj2 (allDates_sequence (10 * MS_PER_DAY + 5)
                             (12 * MS_PER_DAY))))
      by (unfold MS_PER_DAY; lia).
    reflexivity.
Defined.

(** ** Going back and forth *)



(** * The columns of the mobile grid *)

Lemma slice_from (A : Type) (l : list A) (start stop : Z) :
  0 <= start <= stop ->
  Grid.slice l start stop
  = firstn (Z.to_nat (stop - start)) (skipn (Z.to_nat start) l).
Proof.
  intros H. unfold Grid.slice.
  assert (Hs : (start <? 0) = false) by (apply Z.ltb_ge; lia).
  assert (Ht : (stop <? 0) = false) by (apply Z.ltb_ge; lia).
  rewrite Hs, Ht.
  destruct (Z_le_gt_dec start (Z.of_nat (List.length l))) as [Hin|Hout].
  - rewrite (Z.min_l start) by lia.
    destruct (Z_le_gt_dec stop (Z.of_nat (List.length l))) as [Hin'|Hout'].
    + rewrite Z.min_l by lia. reflexivity.
    + rewrite Z.min_r by lia.
      rewrite !firstn_all2; [reflexivity | |]; rewrite length_skipn; lia.
  - rewrite !Z.min_r by lia. rewrite Z.sub_diag. simpl.
    rewrite (skipn_all2 l) by lia. rewrite firstn_nil. reflexivity.
Qed.

(** X23.  The index of the mobile grid stays in range.  It starts at 0;
    [goLeftMobile] and [goRightMobile] move it by at most one and keep it
    between 0 and the last index that shows a full page; and at such an
    index the grid shows three activities, the ones from the index on, or
    all the activities when they are fewer than three. *)
Theorem mobile_index_in_range (activities : list Activity.t) (index : Z) :
  Grid.inRange activities 0
  /\ (Grid.inRange activities index ->
      Grid.inRange activities (Grid.goLeftMobile index)
      /\ Grid.inRange activities (Grid.goRightMobile activities index)
      /\ index - 1 <= Grid.goLeftMobile index <= index
      /\ index <= Grid.goRightMobile activities index <= index + 1
      /\ Grid.mobileVisibleActivities activities index
         = firstn 3 (skipn (Z.to_nat index) activities)
      /\ List.length (Grid.mobileVisibleActivities activities index)
         = Nat.min 3 (List.length activities)).
Proof.
  unfold Grid.inRange, Grid.goLeftMobile, Grid.goRightMobile,
    Grid.mobileVisibleActivities, Grid.MOBILE_VISIBLE_ACTIVITIES.
  split; [lia|]. intros H.
  assert (Hleft : (if index >? 0 then Z.max 0 (index - 1) else index)
                  = Z.max 0 (index - 1)).
  { destruct (index >? 0) eqn:E; [reflexivity|].
    rewrite Z.gtb_ltb in E. apply Z.ltb_ge in E. lia. }
  rewrite Hleft.
  destruct (index + 3 <? Z.of_nat (List.length activities)) eqn:E;
    [apply Z.ltb_lt in E | apply Z.ltb_ge in E].
  - rewrite slice_from by lia.
    replace (Z.to_nat (index + 3 - index)) with 3%nat by lia.
    repeat split; try lia.
    rewrite length_firstn, length_skipn. lia.
  - rewrite slice_from by lia.
    replace (Z.to_nat (index + 3 - index)) with 3%nat by lia.
    repeat split; try lia.
    rewrite length_firstn, length_skipn. lia.
Qed.

Lemma mobile_index_in_range_witness :
  Grid.mobileVisibleActivities (DataStore.activities demoStore)
    (Grid.goRightMobile (DataStore.activities demoStore) 0)
  = DataStore.activities demoStore.
Proof.
  assert (H : Grid.inRange (DataStore.activities demoStore) 0)
    by (unfold Grid.inRange; simpl; lia).
  destruct (proj2 (mobile_index_in_range (DataStore.activities demoStore) 0) H)
    as (_ & Hr & _).
  destruct (proj2 (mobile_index_in_range (DataStore.activities demoStore)
                     (Grid.goRightMobile (DataStore.activities demoStore) 0)) Hr)
    as (_ & _ & _ & _ & Hv & _).
  rewrite Hv. reflexivity.
Defined.

(** X24.  In the mobile grid a step is undone by the opposite step: from
    an index in range, going right and then left returns to the index
    whenever going right moved it, and going left and then right returns
    to it whenever going left moved it.  At index 0 going left does
    nothing, and at the last full page going right does nothing. *)
Theorem mobile_steps_inverse (activities : list Activity.t) (index : Z) :
  Grid.inRange activities index ->
  let right := Grid.goRightMobile activities in
  (right index <> index -> Grid.goLeftMobile (right index) = index)
  /\ (Grid.goLeftMobile index <> index ->
      right (Grid.goLeftMobile index) = index)
  /\ Grid.goLeftMobile 0 = 0
  /\ (Z.of_nat (List.length activities) - Grid.MOBILE_VISIBLE_ACTIVITIES <= index ->
      right index = index).
Proof.
  unfold Grid.inRange, Grid.goLeftMobile, Grid.goRightMobile,
    Grid.MOBILE_VISIBLE_ACTIVITIES.
  intros H. cbv zeta.
  split; [|split; [|split; [reflexivity|]]].
  - destruct (index + 3 <? Z.of_nat (List.length activities)) eqn:E;
      [apply Z.ltb_lt in E | congruence].
    intros _.
    assert (Hg : (Z.min (Z.of_nat (List.length activities) - 3) (index + 1) >? 0)
                 = true) by (apply Z.gtb_gt; lia).
    rewrite Hg. lia.
  - destruct (index >? 0) eqn:E; [apply Z.gtb_gt in E | congruence].
    intros _.
    assert (Hl : (Z.max 0 (index - 1) + 3 <? Z.of_nat (List.length activities))
                 = true) by (apply Z.ltb_lt; lia).
    rewrite Hl. lia.
  - intros Hend.
    assert (Hl : (index + 3 <? Z.of_nat (List.length activities)) = false)
      by (apply Z.ltb_ge; lia).
    rewrite Hl. reflexivity.
Qed.

Lemma mobile_steps_inverse_witness :
  Grid.goLeftMobile
    (Grid.goRightMobile (DataStore.activities demoStore ++
                         DataStore.activities demoStore) 1)
  = 1.
Proof.
  apply (proj1 (mobile_steps_inverse
                  (DataStore.activities demoStore ++ DataStore.activities demoStore)
                  1 ltac:(unfold Grid.inRange; simpl; lia))).
  discriminate.
Defined.

(** * Further properties of notes, deletions and navigation *)

Lemma saveNote_lookup supabase newDate e date text st :
  let o := DataStore.saveNote supabase newDate e date text st in
  DataStore.getNoteForDate date (DataStore.after o) = Some (DataStore.returned o)
  /\ Note.logged_date (DataStore.returned o) = date
  /\ Note.text (DataStore.returned o) = text.
Proof.
  intros o. subst o.
  destruct (saveNote_cases supabase newDate e date text st)
    as [(x & Hx & Hr & ->)|(Hnone & Hd & Ht & ->)];
    set (o := DataStore.saveNote supabase newDate e date text st) in *;
    unfold DataStore.getNoteForDate in *; simpl.
  - pose proof (find_some _ _ Hx) as [_ Hxd]. apply streq_true_iff in Hxd.
    assert (Hrd : Note.logged_date (DataStore.returned o) = date)
      by (rewrite Hr; exact Hxd).
    split; [|split; [exact Hrd | rewrite Hr; reflexivity]].
    apply (find_mutateFirst_same
             (fun note => streq (Note.logged_date note) date)
             (fun _ => DataStore.returned o) _ x Hx).
    apply streq_true_iff. exact Hrd.
  - split; [|split; assumption].
    rewrite find_snoc, Hnone, Hd, streq_refl. reflexivity.
Qed.

(** X25.  Notes reach the store trimmed.  [saveNote(date, text)] of the
    hook, called with a text that is not made of white space only, leaves
    for the date a Note, the one [getNoteForDate(date)] of the hook then
    returns, whose text is the text without its leading and trailing
    white space: it is not empty and neither starts nor ends with a white
    space. *)
Theorem hook_saveNote_trims
    (supabase : bool) (newDate : jsstring -> Date) (e : Effects)
    (date text : jsstring) (h : UseTracker.t) :
  forallb isWhiteSpace text = false ->
  let h' := UseTracker.saveNote supabase newDate e date text h in
  exists note,
    UseTracker.getNoteForDate date h' = Some note
    /\ DataStore.getNoteForDate date (UseTracker.store h') = Some note
    /\ Note.logged_date note = date
    /\ Note.text note = trim text
    /\ Note.text note <> []
    /\ (forall c m, Note.text note = c :: m -> isWhiteSpace c = false)
    /\ (forall c m, Note.text note = m ++ [c] -> isWhiteSpace c = false).
Proof.
  intros Htext h'.
  assert (Hne : trim text <> []).
  { intros Hnil. apply trim_nil_iff in Hnil. congruence. }
  assert (Htruthy : truthy (trim text) = true)
    by (destruct (trim text); [congruence | reflexivity]).
  destruct (saveNote_lookup supabase newDate e date (trim text)
              (UseTracker.store h)) as (Hfind & Hd & Ht).
  exists (DataStore.returned
            (DataStore.saveNote supabase newDate e date (trim text)
               (UseTracker.store h))).
  unfold h', UseTracker.saveNote, UseTracker.getNoteForDate. rewrite Htruthy.
  cbn [UseTracker.notes UseTracker.store]. unfold DataStore.getNotes.
  split; [exact Hfind|]. split; [exact Hfind|]. split; [exact Hd|].
  rewrite Ht. split; [reflexivity|]. split; [exact Hne|].
  split; intros c m Hc; [exact (trim_first text m c Hc)
                        | exact (trim_last text m c Hc)].
Qed.

Lemma hook_saveNote_trims_witness :
  exists note,
    UseTracker.getNoteForDate (js "2024-01-01")
      (UseTracker.saveNote true (fun _ => 0) (demoEffects 1) (js "2024-01-01")
         (js " rewritten  ") demoTracker)
    = Some note
    /\ Note.text note = js "rewritten".
Proof.
  destruct (hook_saveNote_trims true (fun _ => 0) (demoEffects 1)
              (js "2024-01-01") (js " rewritten  ") demoTracker eq_refl)
    as (note & Hfind & _ & _ & Ht & _).
  exists note. split; [exact Hfind | exact Ht].
Defined.

(** X26.  A deleted Activity disappears from the grid.  After
    [deleteActivity(activityId)] of the hook, no Activity with this id is
    among the activities shown, [isLogged(activityId, date)] is false for
    every date, and the cached notes are untouched. *)
Theorem hook_deleteActivity_clears
    (supabase : bool) (e : Effects) (activityId : jsstring) (h : UseTracker.t) :
  let h' := UseTracker.deleteActivity supabase e activityId h in
  (forall a, In a (UseTracker.activities h') -> Activity.id a <> activityId)
  /\ (forall date, UseTracker.isLogged activityId date h' = false)
  /\ UseTracker.notes h' = UseTracker.notes h.
Proof.
  intros h'. unfold h', UseTracker.deleteActivity, UseTracker.isLogged,
    DataStore.deleteActivity, DataStore.getActivities, DataStore.getLogs.
  simpl. split; [|split; [|reflexivity]].
  - intros a Ha.
    apply (Permutation_in a (sortBy_perm Activity.order_index _)) in Ha.
    apply filter_In in Ha. destruct Ha as [_ Ha].
    apply negb_true_iff, streq_false_iff in Ha. exact Ha.
  - intros date.
    destruct (existsb _ _) eqn:E; [|reflexivity].
    apply existsb_exists in E. destruct E as (l & Hl & Hp).
    apply filter_In in Hl. destruct Hl as [_ Hl].
    apply andb_true_iff in Hp. destruct Hp as [Hp _].
    rewrite Hp in Hl. discriminate.
Qed.

Lemma hook_deleteActivity_clears_witness :
  UseTracker.isLogged (js "b") (js "2024-01-02")
    (UseTracker.deleteActivity true (demoEffects 1) (js "b") demoTracker)
  = false
  /\ Activity.id (Activity.make (js "c") (js "C") 0 2) <> js "b".
Proof.
  destruct (hook_deleteActivity_clears true (demoEffects 1) (js "b") demoTracker)
    as (Hgone & Hlogged & _).
  split; [apply Hlogged|].
  apply Hgone. simpl. right. left. reflexivity.
Defined.

(** X27.  Initialising from the remote store.  On a store that is not
    initialised and uses the remote store, when the three tables are
    answered, [initialize()] replaces the collections by the rows
    received, whatever the store held, creates no sample data, keeps
    using the remote store and marks the store initialised. *)
Theorem initialize_from_remote
    (newDate : jsstring -> Date)
    (activityRows : list DbActivity) (logRows : list DbLog)
    (noteRows : list DbNote) (s : Sampling) (st : DataStore.t) :
  DataStore.initialized st = false ->
  DataStore.useSupabase st = true ->
  let r := mkTables (Some activityRows) (Some logRows) (Some noteRows) in
  let st' := DataStore.initialize true newDate r s st in
  DataStore.activities st'
  = map (fun a => Activity.make (da_id a) (da_name a)
                    (newDate (da_created_at a)) (da_order_index a))
        activityRows
  /\ DataStore.logs st'
     = map (fun l => Log.make (dl_id l) (dl_activity_id l) (dl_logged_date l)
                       (newDate (dl_created_at l))) logRows
  /\ DataStore.notes st'
     = map (fun n => Note.make (dn_id n) (dn_logged_date n) (dn_text n)
                       (newDate (dn_created_at n)) (newDate (dn_updated_at n)))
           noteRows
  /\ DataStore.useSupabase st' = true
  /\ DataStore.initialized st' = true.
Proof.
  intros Hinit Huse r st'.
  unfold st', r, DataStore.initialize, DataStore.remote,
    DataStore.loadFromSupabase.
  rewrite Hinit, Huse. simpl.
  destruct (map _ (map _ logRows)); simpl; repeat split; exact Huse.
Qed.

Lemma initialize_from_remote_witness :
  DataStore.activities
    (DataStore.initialize true (fun _ => 0)
       (mkTables (Some [mkDbActivity (js "r1") (js "Remote") (js "t") 4])
                 (Some []) (Some []))
       demoSampling (DataStore.create true 0))
  = [Activity.make (js "r1") (js "Remote") 0 4].
Proof.
  apply (initialize_from_remote (fun _ => 0)
           [mkDbActivity (js "r1") (js "Remote") (js "t") 4] [] []
           demoSampling (DataStore.create true 0) eq_refl eq_refl).
Defined.

(** X28.  The window stays inside the history.  When the window starts on
    or after the history start date and ends on or before today, it still
    does after any sequence of presses of the two navigation buttons. *)
Theorem navigation_stays_in_history
    (startDate today v : Date) (bs : list bool) :
  startDate <= v ->
  addDays v (UseTracker.VISIBLE_DAYS - 1) <= today ->
  startDate <= presses startDate today bs v
  /\ addDays (presses startDate today bs v) (UseTracker.VISIBLE_DAYS - 1)
     <= today.
Proof.
  revert v. unfold presses.
  induction bs as [|b bs IH]; intros v Hs Ht; [split; assumption|].
  cbn [fold_left].
  apply IH; destruct b; unfold press;
    [rewrite goBack_max by exact Hs | rewrite goForward_min by exact Ht
    |rewrite goBack_max by exact Hs | rewrite goForward_min by exact Ht];
    dates; lia.
Qed.

Lemma navigation_stays_in_history_witness :
  0 <= presses 0 (40 * MS_PER_DAY) [true; true; false; true; true; true; true]
         (34 * MS_PER_DAY).
Proof.
  apply (navigation_stays_in_history 0 (40 * MS_PER_DAY) (34 * MS_PER_DAY)
           [true; true; false; true; true; true; true]); dates; lia.
Defined.
